(** * News aggregator backend: article store, fetch adapter and story tracking

    A shallow embedding of [backend/microservices/news_storage.py],
    [backend/microservices/news_fetcher.py] and of the news and story-tracking
    resources of [backend/api_gateway], with the properties of the
    deduplicating article store and of the story-tracking engine.

    Python dictionaries are [gmap string value]; a Supabase table is the list
    of its rows, each row a dictionary, in insertion order.  Code that can
    raise runs in a state-and-exception monad over the database.

    The gateway imports the story-tracking service from
    [backend/microservices/story_tracking_service.py], which is not part of
    the sources at hand: its entities and operations are modelled from the
    specification, and say so. *)

From stdpp Require Import gmap strings list fin_maps.

(** ** Python values *)

#[warnings="-register-all"]
Inductive value :=
  | VNone
  | VBool (b : bool)
  | VNum (z : Z)
  | VStr (s : string)
  | VList (l : list value)
  | VDict (d : gmap string value).

Fixpoint value_eq_dec (v w : value) : {v = w} + {v ≠ w}.
Proof.
  refine (match v, w with
          | VNone, VNone => left eq_refl
          | VBool a, VBool b => cast_if (decide (a = b))
          | VNum a, VNum b => cast_if (decide (a = b))
          | VStr a, VStr b => cast_if (decide (a = b))
          | VList a, VList b => cast_if (@list_eq_dec _ value_eq_dec a b)
          | VDict a, VDict b => cast_if (@gmap_eq_dec _ _ _ _ value_eq_dec a b)
          | _, _ => right _
          end); congruence.
Defined.

Global Instance value_eqdec : EqDecision value := value_eq_dec.

(** Truth value of an object, as [if x:] and [not x] test it. *)
Definition truthy (v : value) : bool :=
  match v with
  | VNone => false
  | VBool b => b
  | VNum z => negb (Z.eqb z 0)
  | VStr s => negb (String.eqb s "")
  | VList l => match l with [] => false | _ => true end
  | VDict d => negb (bool_decide (d = ∅))
  end.

(** [isinstance(v, dict)] *)
Definition is_dict (v : value) : bool :=
  match v with VDict _ => true | _ => false end.

(** ** Exceptions and the monad of effectful code *)

Inductive exn :=
  | KeyError (key : string)
  | TypeError (msg : string)
  | AttributeError (msg : string)
  | IndexError (msg : string)
  | APIError (msg : string)
  | InvalidTokenError (msg : string)
  (* the error taxonomy of the story-tracking service *)
  | InvalidInput (msg : string)
  | InvalidArticle (msg : string)
  | UpstreamUnavailable (msg : string).

(** [str(e)], as the handlers put it in the response message. *)
Definition exn_str (e : exn) : string :=
  match e with
  | KeyError k => "'" +:+ k +:+ "'"
  | TypeError m | AttributeError m | IndexError m | APIError m
  | InvalidTokenError m
  | InvalidInput m | InvalidArticle m | UpstreamUnavailable m => m
  end.

Inductive result (A : Type) :=
  | Ok (a : A)
  | Raise (e : exn).
Arguments Ok {A} a.
Arguments Raise {A} e.

Definition is_ok {A} (r : result A) : bool :=
  match r with Ok _ => true | Raise _ => false end.

Global Instance result_ret : MRet result := λ A a, Ok a.
Global Instance result_bind : MBind result := λ A B f r,
  match r with
  | Ok a => f a
  | Raise e => Raise e
  end.

(** A computation over a store [S]: it returns or raises, and leaves a
    store behind in both cases (nothing here rolls a write back). *)
Definition py (S A : Type) : Type := S → result A * S.

Global Instance py_ret {S} : MRet (py S) := λ A a s, (Ok a, s).
Global Instance py_bind {S} : MBind (py S) := λ A B f c s,
  match c s with
  | (Ok a, s') => f a s'
  | (Raise e, s') => (Raise e, s')
  end.

Definition raise {S A} (e : exn) : py S A := λ s, (Raise e, s).
Definition lift {S A} (r : result A) : py S A := λ s, (r, s).
Definition get_store {S} : py S S := λ s, (Ok s, s).

(** [try: c  except Exception as e: h e] *)
Definition try_except {S A} (c : py S A) (h : exn → py S A) : py S A := λ s,
  match c s with
  | (Ok a, s') => (Ok a, s')
  | (Raise e, s') => h e s'
  end.

(** ** Dictionary and sequence operations *)

(** [d[k]] *)
Definition getitem (d : gmap string value) (k : string) : result value :=
  match d !! k with
  | Some v => Ok v
  | None => Raise (KeyError k)
  end.

(** [d.get(k, default)] *)
Definition dict_get (d : gmap string value) (k : string) (default : value) : value :=
  match d !! k with
  | Some v => v
  | None => default
  end.

(** [v[k]] on an arbitrary object: only dictionaries are subscripted by a
    string key here. *)
Definition subscript (v : value) (k : string) : result value :=
  match v with
  | VDict d => getitem d k
  | _ => Raise (TypeError "object is not subscriptable with a string key")
  end.

(** [v.get(k, default)]: only dictionaries have the method. *)
Definition method_get (v : value) (k : string) (default : value) : result value :=
  match v with
  | VDict d => Ok (dict_get d k default)
  | _ => Raise (AttributeError "object has no attribute 'get'")
  end.

Definition chars (s : string) : list value :=
  (λ c, VStr (String c EmptyString)) <$> String.list_ascii_of_string s.

(** The elements [for x in v] visits. *)
Definition py_iter (v : value) : result (list value) :=
  match v with
  | VList l => Ok l
  | VStr s => Ok (chars s)
  | VDict d => Ok ((λ kv, VStr kv.1) <$> map_to_list d)
  | VNone => Raise (TypeError "'NoneType' object is not iterable")
  | VBool _ => Raise (TypeError "'bool' object is not iterable")
  | VNum _ => Raise (TypeError "'int' object is not iterable")
  end.

(** [len(v)] *)
Definition py_len (v : value) : result nat :=
  match v with
  | VList l => Ok (length l)
  | VStr s => Ok (String.length s)
  | VDict d => Ok (size d)
  | VNone => Raise (TypeError "object of type 'NoneType' has no len()")
  | VBool _ => Raise (TypeError "object of type 'bool' has no len()")
  | VNum _ => Raise (TypeError "object of type 'int' has no len()")
  end.

(** ** The Supabase store  (news_storage.py) *)

(** The two tables the storage module writes.  [news_serial] is the next
    value of the [id] column of [news_articles]. *)
Record supabase := Supabase {
  news_articles : list (gmap string value);
  news_serial : nat;
  user_search_history : list (gmap string value)
}.

Definition empty_supabase : supabase := Supabase [] 0 [].

(** [supabase.table("news_articles").select("*").eq("url", u).execute().data] *)
Definition select_eq_url (u : value) (rows : list (gmap string value))
  : list (gmap string value) :=
  filter (λ r, r !! "url" = Some u) rows.

(** [supabase.table("news_articles").insert(fields).execute().data]: the
    store assigns the [id]; the [url] column is UNIQUE, so a second row with
    a stored url is refused. *)
Definition insert_news_article (fields : gmap string value)
  : py supabase (list (gmap string value)) := λ db,
  match fields !! "url" with
  | Some u =>
      match select_eq_url u (news_articles db) with
      | [] =>
          let r := <["id" := VNum (Z.of_nat (news_serial db))]> fields in
          (Ok [r], Supabase (news_articles db ++ [r]) (S (news_serial db))
                            (user_search_history db))
      | _ :: _ =>
          (Raise (APIError "duplicate key value violates unique constraint"), db)
      end
  | None => (Raise (APIError "null value in column url"), db)
  end.

(** [data[0]] *)
Definition first_row (data : list (gmap string value)) : result (gmap string value) :=
  match data with
  | r :: _ => Ok r
  | [] => Raise (IndexError "list index out of range")
  end.

(** The [source] entry of the inserted row:
    [article["source"]["name"] if isinstance(article.get("source"), dict)
     else article["source"]] *)
Definition source_field (article : gmap string value) : result value :=
  if is_dict (dict_get article "source" VNone)
  then getitem article "source" ≫= λ s, subscript s "name"
  else getitem article "source".

(** The dictionary literal passed to [insert], its entries evaluated in
    source order. *)
Definition new_article_fields (article : gmap string value)
  : result (gmap string value) :=
  title ← getitem article "title";
  let summary := dict_get article "summary" (VStr "") in
  let content := dict_get article "content" (VStr "") in
  source ← source_field article;
  published_at ← getitem article "publishedAt";
  url ← getitem article "url";
  let image := dict_get article "urlToImage" (VStr "") in
  mret (<["title" := title]> (<["summary" := summary]> (<["content" := content]>
       (<["source" := source]> (<["published_at" := published_at]>
       (<["url" := url]> (<["image" := image]> ∅))))))).

Definition store_article_in_supabase (article : gmap string value)
  : py supabase value :=
  url ← lift (getitem article "url");
  db ← get_store;
  let existing := select_eq_url url (news_articles db) in
  if truthy (VList (VDict <$> existing)) && bool_decide (0 < length existing)
  then
    r ← lift (first_row existing);
    lift (getitem r "id")
  else
    fields ← lift (new_article_fields article);
    data ← insert_news_article fields;
    r ← lift (first_row data);
    lift (getitem r "id").

(** [log_user_search]: one more row in [user_search_history]; [now] is
    [datetime.datetime.utcnow().isoformat()] at the call. *)
Definition log_user_search (now : string) (user_id news_id session_id : value)
  : py supabase (list (gmap string value)) := λ db,
  let r : gmap string value :=
    <["user_id" := user_id]> (<["news_id" := news_id]>
    (<["searched_at" := VStr now]> (<["session_id" := session_id]> ∅))) in
  (Ok [r], Supabase (news_articles db) (news_serial db)
                    (user_search_history db ++ [r])).

(** ** The fetch adapter  (news_fetcher.py) *)

(** What the provider request of one call does: [requests.get] raises a
    [RequestException] (no connection, timeout; a body that is no JSON makes
    [response.json()] raise one too), [raise_for_status] raises one for an
    HTTP error status, or [response.json()] is the decoded body. *)
Inductive provider_response :=
  | RequestFailed (msg : string)
  | HttpError (status : nat)
  | JsonBody (news_data : value).

(** [fetch_news(keyword)], the provider being the environment of the call.
    Both failure paths only print: the function falls off its end and the
    call evaluates to [None].  Only a [RequestException] is caught: a body
    that is no JSON object makes [news_data.get] raise out of the call. *)
Definition fetch_news (provider : string → provider_response) (keyword : string)
  : result value :=
  match provider keyword with
  | JsonBody news_data =>
      status ← method_get news_data "status" VNone;
      if bool_decide (status = VStr "ok")
      then method_get news_data "articles" (VList [])
      else Ok VNone
  | RequestFailed _ => Ok VNone
  | HttpError _ => Ok VNone
  end.

(** ** The news resource  (api_gateway/routes/news.py, and its copy in
    api_gateway.py) *)

Record response := Response {
  status_code : nat;
  body : gmap string value
}.

(** [{'status': 'error', 'message': str(e)}] *)
Definition error_body (message : string) : gmap string value :=
  <["status" := VStr "error"]> (<["message" := VStr message]> ∅).

(** [{'status': 'success', 'data': data}] *)
Definition success_body (data : value) : gmap string value :=
  <["status" := VStr "success"]> (<["data" := data]> ∅).

(** What [token_required] and the handlers get out of the Authorization
    header: none, a token that [split] or [jwt.decode] rejects, or the
    payload of a valid token. *)
Inductive credentials :=
  | NoAuthorization
  | InvalidToken (msg : string)
  | ValidToken (payload : gmap string value).

(** One request: its query string, its credentials, [request.get_json()]
    and the clock. *)
Record request := Request {
  args : gmap string string;
  auth : credentials;
  json : value;
  now : string
}.

(** [request.args.get(k)] *)
Definition arg (rq : request) (k : string) : value :=
  match args rq !! k with
  | Some s => VStr s
  | None => VNone
  end.

(** The body of the [for article in articles] loop of [NewsFetch.get];
    [ids] is [stored_article_ids] so far. *)
Definition store_one (rq : request) (user_id session_id : value)
    (ids : list value) (article : value) : py supabase (list value) :=
  match article with
  | VDict a =>
      (* [article.get('title', 'No title')] is only logged *)
      article_id ← store_article_in_supabase a;
      let ids' := ids ++ [article_id] in
      if truthy user_id
      then _ ← log_user_search (now rq) user_id article_id session_id; mret ids'
      else mret ids'
  | _ => raise (AttributeError "object has no attribute 'get'")
  end.

Fixpoint store_all (rq : request) (user_id session_id : value)
    (ids : list value) (articles : list value) : py supabase (list value) :=
  match articles with
  | [] => mret ids
  | article :: rest =>
      ids' ← store_one rq user_id session_id ids article;
      store_all rq user_id session_id ids' rest
  end.

(** [NewsFetch.get] *)
Definition NewsFetch_get (provider : string → provider_response) (rq : request)
  : py supabase response :=
  try_except
    (let keyword := default "" (args rq !! "keyword") in
     let user_id := arg rq "user_id" in
     let session_id := arg rq "session_id" in
     articles ← lift (fetch_news provider keyword);
     _ ← lift (if truthy articles then py_len articles else Ok 0);
     items ← lift (py_iter articles);
     stored_article_ids ← store_all rq user_id session_id [] items;
     mret (Response 200 (success_body (VList stored_article_ids))))
    (λ e, mret (Response 500 (error_body (exn_str e)))).

(** ** The article store: well-formed tables *)

(** Number of rows of a table with a given url. *)
Definition rows_with_url (u : value) (db : supabase) : nat :=
  length (select_eq_url u (news_articles db)).

(** What the table's constraints give: every row has an [id] and a [url],
    ids are below the serial, and no url is stored twice. *)
Record table_ok (db : supabase) : Prop := {
  ok_id : ∀ r, r ∈ news_articles db →
          ∃ n, r !! "id" = Some (VNum (Z.of_nat n)) ∧ n < news_serial db;
  ok_url : ∀ r, r ∈ news_articles db → is_Some (r !! "url");
  ok_unique : ∀ u, rows_with_url u db ≤ 1
}.

(** A sequence of independent [store_article_in_supabase] calls: the
    outcome of each call, and the store after the last one. *)
Fixpoint upsert_all (articles : list (gmap string value)) (db : supabase)
  : list (result value) * supabase :=
  match articles with
  | [] => ([], db)
  | a :: rest =>
      let '(r, db') := store_article_in_supabase a db in
      let '(rs, db'') := upsert_all rest db' in
      (r :: rs, db'')
  end.

(** The row [insert] stores for a candidate: its seven columns, as the
    dictionary literal of the insert path names them. *)
Definition article_row (title summary content source published_at url image : value)
  : gmap string value :=
  <["title" := title]> (<["summary" := summary]> (<["content" := content]>
  (<["source" := source]> (<["published_at" := published_at]>
  (<["url" := url]> (<["image" := image]> ∅)))))).

(** The store after a successful insert of the fields [f]. *)
Definition inserted (f : gmap string value) (db : supabase) : supabase :=
  Supabase (news_articles db ++ [<["id" := VNum (Z.of_nat (news_serial db))]> f])
           (S (news_serial db)) (user_search_history db).

(** ** Text matching *)

(** Modelled from the spec: the relatedness matcher lives in
    [backend/microservices/story_tracking_service.py], which is not among
    the sources.  The spec's rule: the story's keyword, case-insensitive and
    whitespace-trimmed, occurs as a substring of the article's title or
    content/summary; an empty or whitespace-only keyword matches nothing; a
    null or missing field counts as the empty string. *)
Definition is_space (c : Ascii.ascii) : bool :=
  let n := Ascii.nat_of_ascii c in
  (n =? 32) || ((9 <=? n) && (n <=? 13)).

Definition lower_char (c : Ascii.ascii) : Ascii.ascii :=
  let n := Ascii.nat_of_ascii c in
  if (65 <=? n) && (n <=? 90) then Ascii.ascii_of_nat (n + 32) else c.

Definition lower (s : list Ascii.ascii) : list Ascii.ascii := lower_char <$> s.

Fixpoint lstrip (s : list Ascii.ascii) : list Ascii.ascii :=
  match s with
  | c :: s' => if is_space c then lstrip s' else s
  | [] => []
  end.

Definition strip (s : list Ascii.ascii) : list Ascii.ascii :=
  reverse (lstrip (reverse (lstrip s))).

Fixpoint starts_with (k s : list Ascii.ascii) : bool :=
  match k, s with
  | [], _ => true
  | c :: k', d :: s' => bool_decide (c = d) && starts_with k' s'
  | _ :: _, [] => false
  end.

Fixpoint contains (k s : list Ascii.ascii) : bool :=
  starts_with k s ||
  match s with
  | [] => false
  | _ :: s' => contains k s'
  end.

(** The text of a field of an article: the empty text for a missing or
    null field (or one that is no string). *)
Definition field_text (article : gmap string value) (k : string) : list Ascii.ascii :=
  match article !! k with
  | Some (VStr s) => String.list_ascii_of_string s
  | _ => []
  end.

(** The keyword as it is matched: trimmed, in lower case. *)
Definition normalize (keyword : string) : list Ascii.ascii :=
  lower (strip (String.list_ascii_of_string keyword)).

(** [k] occurs in [s] as a substring. *)
Definition occurs (k s : list Ascii.ascii) : Prop :=
  ∃ pre post, s = pre ++ k ++ post.

(** A keyword made of whitespace only (the empty keyword is one). *)
Definition blank (keyword : string) : Prop :=
  Forall (λ c, is_space c = true) (String.list_ascii_of_string keyword).

(** ** The story-tracking service *)

Inductive story_status := ACTIVE | DELETED.

Global Instance story_status_eqdec : EqDecision story_status.
Proof. solve_decision. Defined.

(** Modelled from the spec: the [TrackedStory] entity of the data model
    (the service module is not among the sources). *)
Record TrackedStory := {
  story_id : string;
  owner_user_id : value;
  keyword : string;
  created_at : string;
  status : story_status;
  source_article_id : option value
}.

(** Modelled from the spec: the [StoryArticleLink] join row. *)
Record StoryArticleLink := {
  link_story : string;
  link_article : value;
  linked_at : string
}.

Definition link_pair (l : StoryArticleLink) : string * value :=
  (link_story l, link_article l).

(** Modelled from the spec: the persisted state, three logical tables
    ([articles] is the [news_articles] table of the store). *)
Record engine := Engine {
  store : supabase;
  tracked_stories : gmap string TrackedStory;
  story_article_links : list StoryArticleLink
}.

Definition empty_engine : engine := Engine empty_supabase ∅ [].

(** A computation of the storage module, run on the engine's store. *)
Definition on_store {A} (c : py supabase A) : py engine A := λ e,
  let '(r, s) := c (store e) in
  (r, Engine s (tracked_stories e) (story_article_links e)).

(** Modelled from the spec: [isRelated(story, article)]. *)
Definition is_related (story : TrackedStory) (article : gmap string value) : bool :=
  let k := normalize (keyword story) in
  match k with
  | [] => false
  | _ :: _ =>
      contains k (lower (field_text article "title"))
      || contains k (lower (field_text article "content"))
      || contains k (lower (field_text article "summary"))
  end.

Inductive link_outcome := Linked | AlreadyLinked.

Definition is_linked (sid : string) (aid : value) (links : list StoryArticleLink) : bool :=
  bool_decide ((sid, aid) ∈ link_pair <$> links).

(** Modelled from the spec: [linkStoryArticle(storyId, articleId) ->
    ok | alreadyLinked]; the table is unique on the pair, and linking a
    linked pair is a silent no-op. *)
Definition link_story_article (now : string) (sid : string) (aid : value)
  : py engine link_outcome := λ e,
  if is_linked sid aid (story_article_links e)
  then (Ok AlreadyLinked, e)
  else (Ok Linked,
        Engine (store e) (tracked_stories e)
               (story_article_links e ++ [Build_StoryArticleLink sid aid now])).

(** Counts of one refresh pass: articles seen and links created. *)
Record RefreshCount := Counted {
  articles_seen : nat;
  new_links : nat
}.

(** Modelled from the spec: steps 2 to 4 of the refresh cycle for one
    candidate: deduplicate it, match it, link it when related. *)
Definition match_and_link (now : string) (story : TrackedStory)
    (cnt : RefreshCount) (candidate : value) : py engine RefreshCount :=
  match candidate with
  | VDict a =>
      article_id ← on_store (store_article_in_supabase a);
      if is_related story a
      then
        outcome ← link_story_article now (story_id story) article_id;
        mret (Counted (S (articles_seen cnt))
                      (match outcome with
                       | Linked => S (new_links cnt)
                       | AlreadyLinked => new_links cnt
                       end))
      else mret (Counted (S (articles_seen cnt)) (new_links cnt))
  | _ => raise (InvalidArticle "candidate is not an object")
  end.

Fixpoint match_and_link_all (now : string) (story : TrackedStory)
    (cnt : RefreshCount) (candidates : list value) : py engine RefreshCount :=
  match candidates with
  | [] => mret cnt
  | c :: rest =>
      cnt' ← match_and_link now story cnt c;
      match_and_link_all now story cnt' rest
  end.

(** Modelled from the spec: the refresh cycle for one story (§4.4).  A story
    whose keyword is empty once trimmed is skipped; a fetch that yields no
    list of candidates is an upstream failure, which the callers record or
    surface. *)
Definition find_related_articles (provider : string → provider_response)
    (now : string) (story : TrackedStory) : py engine RefreshCount :=
  match normalize (keyword story) with
  | [] => mret (Counted 0 0)
  | _ :: _ =>
      match fetch_news provider (keyword story) with
      | Ok (VList candidates) =>
          match_and_link_all now story (Counted 0 0) candidates
      | Ok _ => raise (UpstreamUnavailable "no candidates fetched")
      | Raise err => raise err
      end
  end.

(** Modelled from the spec: a new row of [tracked_stories], ACTIVE, under
    an id the table does not hold yet. *)
Definition insert_tracked_story (now : string) (user_id : value) (k : string)
    (seed : option value) : py engine TrackedStory := λ e,
  let sid := fresh (dom (tracked_stories e)) in
  let story := Build_TrackedStory sid user_id k now ACTIVE seed in
  (Ok story, Engine (store e) (<[sid := story]> (tracked_stories e))
                    (story_article_links e)).

(** Modelled from the spec: [createTrackedStory(userId, keyword,
    sourceArticleId?)]: the keyword must be a non-empty string; the story is
    created ACTIVE, linked to its seed when one is given, and populated by
    one refresh pass, whose failure is surfaced to the caller. *)
Definition create_tracked_story (provider : string → provider_response)
    (now : string) (user_id keyword source_article_id : value)
  : py engine TrackedStory :=
  match keyword with
  | VStr k =>
      if bool_decide (k = "")
      then raise (InvalidInput "keyword is required")
      else
        let seed := match source_article_id with
                    | VNone => None
                    | v => Some v
                    end in
        story ← insert_tracked_story now user_id k seed;
        _ ← match seed with
            | Some aid => link_story_article now (story_id story) aid
            | None => mret AlreadyLinked
            end;
        _ ← find_related_articles provider now story;
        mret story
  | _ => raise (InvalidInput "keyword is required")
  end.

(** The rows of [news_articles] linked to a story. *)
Definition linked_articles (sid : string) (e : engine) : list (gmap string value) :=
  filter (λ r, match r !! "id" with
               | Some aid => is_linked sid aid (story_article_links e)
               | None => false
               end = true)
         (news_articles (store e)).

(** Modelled from the spec: [getStoryDetails(storyId)]: the story and its
    linked articles; not-found ([None]) for an unknown or DELETED story. *)
Definition get_story_details (sid : string) (e : engine)
  : option (TrackedStory * list (gmap string value)) :=
  match tracked_stories e !! sid with
  | Some story =>
      match status story with
      | ACTIVE => Some (story, linked_articles sid e)
      | DELETED => None
      end
  | None => None
  end.

Definition mark_deleted (story : TrackedStory) : TrackedStory :=
  Build_TrackedStory (story_id story) (owner_user_id story) (keyword story)
                     (created_at story) DELETED (source_article_id story).

(** Modelled from the spec: [deleteTrackedStory(userId, storyId)]: succeeds
    only for an existing ACTIVE story of the caller, whose status becomes
    DELETED (its links are kept); [false] and no change otherwise. *)
Definition delete_tracked_story (user_id : value) (sid : string)
  : py engine bool := λ e,
  match tracked_stories e !! sid with
  | Some story =>
      if bool_decide (status story = ACTIVE) && bool_decide (owner_user_id story = user_id)
      then (Ok true, Engine (store e) (<[sid := mark_deleted story]> (tracked_stories e))
                            (story_article_links e))
      else (Ok false, e)
  | None => (Ok false, e)
  end.

(** The report of one batch refresh. *)
Record RefreshReport := Report {
  total_seen : nat;
  total_new_links : nat;
  failures : list (string * exn)
}.

(** Modelled from the spec: one story of the batch: its failure is recorded
    in the report and the cycle goes on. *)
Definition refresh_one (provider : string → provider_response) (now : string)
    (rep : RefreshReport) (story : TrackedStory) : py engine RefreshReport :=
  try_except
    (cnt ← find_related_articles provider now story;
     mret (Report (total_seen rep + articles_seen cnt)
                  (total_new_links rep + new_links cnt) (failures rep)))
    (λ err, mret (Report (total_seen rep) (total_new_links rep)
                         (failures rep ++ [(story_id story, err)]))).

Fixpoint refresh_each (provider : string → provider_response) (now : string)
    (rep : RefreshReport) (stories : list TrackedStory) : py engine RefreshReport :=
  match stories with
  | [] => mret rep
  | story :: rest =>
      rep' ← refresh_one provider now rep story;
      refresh_each provider now rep' rest
  end.

(** Modelled from the spec: [refreshAllTrackedStories()]: every ACTIVE
    story once. *)
Definition update_all_tracked_stories (provider : string → provider_response)
    (now : string) : py engine RefreshReport := λ e,
  let active := filter (λ s, status s = ACTIVE)
                       ((map_to_list (tracked_stories e)).*2) in
  refresh_each provider now (Report 0 0 []) active e.

(** ** The story-tracking resources  (api_gateway.py) *)

(** Modelled from the spec: the dictionary the service hands to the
    gateway for a story and its linked articles; the gateway reads its
    [id], [keyword] and [articles] entries. *)
Definition story_dict (story : TrackedStory) (articles : list (gmap string value))
  : value :=
  VDict (<["id" := VStr (story_id story)]>
        (<["user_id" := owner_user_id story]>
        (<["keyword" := VStr (keyword story)]>
        (<["created_at" := VStr (created_at story)]>
        (<["articles" := VList (VDict <$> articles)]> ∅))))).

(** What [get_story_details(story_id)] evaluates to in the gateway: the
    dictionary, or [None] for not-found. *)
Definition story_details_value (sid : string) (e : engine) : value :=
  match get_story_details sid e with
  | Some (story, articles) => story_dict story articles
  | None => VNone
  end.

(** [{'error': 'Invalid token', 'message': str(e)}] *)
Definition invalid_token_body (message : string) : gmap string value :=
  <["error" := VStr "Invalid token"]> (<["message" := VStr message]> ∅).

(** [auth_header.split()[1]] and [jwt.decode(...)] of the handlers: the
    payload of a valid token. *)
Definition token_payload (rq : request) : result (gmap string value) :=
  match auth rq with
  | ValidToken payload => Ok payload
  | InvalidToken msg => Raise (InvalidTokenError msg)
  | NoAuthorization =>
      Raise (AttributeError "'NoneType' object has no attribute 'split'")
  end.

(** The [token_required] decorator around a handler [f]. *)
Definition token_required (rq : request) (f : py engine response)
  : py engine response :=
  match auth rq with
  | NoAuthorization =>
      mret (Response 401 (<["error" := VStr "Authorization header missing"]> ∅))
  | InvalidToken msg => mret (Response 401 (invalid_token_body msg))
  | ValidToken _ =>
      try_except f (λ e, mret (Response 401 (invalid_token_body (exn_str e))))
  end.

(** The [except Exception as e] clause shared by the handlers. *)
Definition server_error (e : exn) : py engine response :=
  mret (Response 500 (error_body (exn_str e))).

(** [StoryTracking.post] *)
Definition StoryTracking_post (provider : string → provider_response)
    (rq : request) : py engine response :=
  token_required rq
    (try_except
       (payload ← lift (token_payload rq);
        let user_id := dict_get payload "sub" VNone in
        keyword ← lift (method_get (json rq) "keyword" VNone);
        source_article_id ← lift (method_get (json rq) "sourceArticleId" VNone);
        if negb (truthy keyword)
        then mret (Response 400 (error_body "Keyword is required"))
        else
          tracked_story ← create_tracked_story provider (now rq) user_id keyword
                                               source_article_id;
          e ← get_store;
          let story_with_articles := story_details_value (story_id tracked_story) e in
          _ ← lift (if truthy story_with_articles
                    then method_get story_with_articles "articles" (VList [])
                           ≫= py_len
                    else Ok 0);
          mret (Response 201 (success_body story_with_articles)))
       server_error).

(** [StoryTrackingDetail.get] *)
Definition StoryTrackingDetail_get (sid : string) (rq : request)
  : py engine response :=
  token_required rq
    (try_except
       (e ← get_store;
        let story := story_details_value sid e in
        if negb (truthy story)
        then mret (Response 404 (error_body "Tracked story not found"))
        else
          _ ← lift (subscript story "keyword");
          _ ← lift (method_get story "articles" (VList []) ≫= py_len);
          mret (Response 200 (success_body story)))
       server_error).

(** [{'status': 'success', 'message': message}] *)
Definition success_message (message : string) : gmap string value :=
  <["status" := VStr "success"]> (<["message" := VStr message]> ∅).

(** [StoryTrackingDetail.delete] *)
Definition StoryTrackingDetail_delete (sid : string) (rq : request)
  : py engine response :=
  token_required rq
    (try_except
       (payload ← lift (token_payload rq);
        let user_id := dict_get payload "sub" VNone in
        success ← delete_tracked_story user_id sid;
        if negb success
        then mret (Response 404
                     (error_body "Failed to delete tracked story or story not found"))
        else mret (Response 200 (success_message "Tracked story deleted successfully")))
       server_error).

(** ** Reachable states *)

(** What can be invoked on the system: the resources of the gateway, and the
    operations of the service that the scheduler and the engine call. *)
Inductive operation :=
  | CallNewsFetch (provider : string → provider_response) (rq : request)
  | CallStoryPost (provider : string → provider_response) (rq : request)
  | CallStoryGet (sid : string) (rq : request)
  | CallStoryDelete (sid : string) (rq : request)
  | CallCreate (provider : string → provider_response) (now : string)
               (user_id keyword source_article_id : value)
  | CallDelete (user_id : value) (sid : string)
  | CallRefreshAll (provider : string → provider_response) (now : string)
  | CallLink (now : string) (sid : string) (aid : value).

(** The state an operation leaves behind. *)
Definition run (op : operation) (e : engine) : engine :=
  match op with
  | CallNewsFetch provider rq => (on_store (NewsFetch_get provider rq) e).2
  | CallStoryPost provider rq => (StoryTracking_post provider rq e).2
  | CallStoryGet sid rq => (StoryTrackingDetail_get sid rq e).2
  | CallStoryDelete sid rq => (StoryTrackingDetail_delete sid rq e).2
  | CallCreate provider now user_id keyword source_article_id =>
      (create_tracked_story provider now user_id keyword source_article_id e).2
  | CallDelete user_id sid => (delete_tracked_story user_id sid e).2
  | CallRefreshAll provider now => (update_all_tracked_stories provider now e).2
  | CallLink now sid aid => (link_story_article now sid aid e).2
  end.

Inductive reachable : engine → Prop :=
  | reachable_empty : reachable empty_engine
  | reachable_run op e : reachable e → reachable (run op e).

(** Number of link rows for a pair. *)
Definition links_of (sid : string) (aid : value) (e : engine) : nat :=
  length (filter (λ l, link_pair l = (sid, aid)) (story_article_links e)).

(** The provider request of a call fails: no response, an HTTP error
    status, or a body whose [status] is not ["ok"]. *)
Definition provider_failed (r : provider_response) : Prop :=
  match r with
  | RequestFailed _ | HttpError _ => True
  | JsonBody (VDict news_data) => news_data !! "status" ≠ Some (VStr "ok")
  | JsonBody _ => False
  end.

(** ** Sample data *)

(** An article as the provider returns it. *)
Definition sample_article (url title : string) : gmap string value :=
  <["title" := VStr title]> (<["url" := VStr url]>
  (<["publishedAt" := VStr "2025-03-01T09:00:00Z"]>
  (<["source" := VDict (<["id" := VNone]> (<["name" := VStr "BBC News"]> ∅))]>
  (<["content" := VNone]> ∅)))).

Definition sample_provider : string → provider_response := λ _,
  JsonBody (VDict (<["status" := VStr "ok"]>
           (<["articles" := VList [VDict (sample_article "https://news.example/ev"
                                            "Electric Vehicles sales double");
                                   VDict (sample_article "https://news.example/soup"
                                            "Ten cooking recipes")]]> ∅))).

Definition failing_provider : string → provider_response := λ _,
  RequestFailed "connection refused".

(** A request of the user [sub] with a JSON body. *)
Definition sample_request (sub : string) (body : value) : request :=
  Request ∅ (ValidToken (<["sub" := VStr sub]> ∅)) body "2025-03-02T10:00:00".

(** The link table holds no pair twice. *)
Definition links_unique (e : engine) : Prop :=
  NoDup (link_pair <$> story_article_links e).

(** The store of the engine satisfies the constraints of its table. *)
Definition store_ok (e : engine) : Prop := table_ok (store e).

(** A computation keeps an invariant of its store, however it ends. *)
Definition preserves {S A} (I : S → Prop) (c : py S A) : Prop :=
  ∀ s, I s → I (c s).2.

(** ** The keyword feed  (api_gateway.py, [StoryTracking.get]) *)

(** [article.get('source', {}).get('name')
     if isinstance(article.get('source'), dict) else article.get('source')] *)
Definition source_name (article : gmap string value) : value :=
  match dict_get article "source" VNone with
  | VDict d => dict_get d "name" VNone
  | v => v
  end.

(** The dictionary appended to [processed_articles]; [now] is
    [datetime.now().isoformat()]. *)
Definition processed_article (now : string) (article_id : value)
    (article : gmap string value) : value :=
  VDict (<["id" := article_id]>
        (<["title" := dict_get article "title" VNone]>
        (<["url" := dict_get article "url" VNone]>
        (<["source" := source_name article]>
        (<["publishedAt" := dict_get article "publishedAt" (VStr now)]> ∅))))).

(** The body of the [for article in articles] loop of [StoryTracking.get]. *)
Definition process_one (rq : request) (processed : list value) (article : value)
  : py supabase (list value) :=
  match article with
  | VDict a =>
      article_id ← store_article_in_supabase a;
      mret (processed ++ [processed_article (now rq) article_id a])
  | _ => raise (AttributeError "object has no attribute 'get'")
  end.

Fixpoint process_all (rq : request) (processed : list value) (articles : list value)
  : py supabase (list value) :=
  match articles with
  | [] => mret processed
  | article :: rest =>
      processed' ← process_one rq processed article;
      process_all rq processed' rest
  end.

(** [{'status': 'success', 'articles': processed_articles}] *)
Definition articles_body (processed : list value) : gmap string value :=
  <["status" := VStr "success"]> (<["articles" := VList processed]> ∅).

(** [StoryTracking.get] *)
Definition StoryTracking_get (provider : string → provider_response) (rq : request)
  : py supabase response :=
  try_except
    (match args rq !! "keyword" with
     | Some keyword =>
         if negb (truthy (VStr keyword))
         then mret (Response 400 (error_body "Keyword parameter is required"))
         else
           articles ← lift (fetch_news provider keyword);
           _ ← lift (if truthy articles then py_len articles else Ok 0);
           items ← lift (py_iter articles);
           processed_articles ← process_all rq [] items;
           mret (Response 200 (articles_body processed_articles))
     | None => mret (Response 400 (error_body "Keyword parameter is required"))
     end)
    (λ e, mret (Response 500 (error_body (exn_str e)))).

(** ** The summaries resource  (api_gateway/routes/news.py, [NewsProcess.post]) *)

(** The user of the optional token: [None] without a header, and also when
    [split] or [jwt.decode] rejects the token (the handler only logs a
    warning). *)
Definition optional_user_id (rq : request) : value :=
  match auth rq with
  | ValidToken payload => dict_get payload "sub" VNone
  | InvalidToken _ => VNone
  | NoAuthorization => VNone
  end.

(** [{'status': 'success', 'message': ..., 'data': data, 'session_id': sid}] *)
Definition processed_body (data session_id : value) : gmap string value :=
  <["status" := VStr "success"]>
  (<["message" := VStr "Articles processed and summarized successfully"]>
  (<["data" := data]> (<["session_id" := session_id]> ∅))).

(** [NewsProcess.post].  [process_articles] belongs to the summarization
    service, which is not part of the sources at hand: the handler is
    modelled over any such function, on any store [S]. *)
Definition NewsProcess_post {S : Type}
    (process_articles : value → value → py S value) (rq : request)
  : py S response :=
  try_except
    (let session_id := arg rq "session_id" in
     let user_id := optional_user_id rq in
     article_ids ← lift (method_get (json rq) "article_ids" (VList []));
     if negb (truthy article_ids)
     then mret (Response 400 (error_body "No article IDs provided in request body"))
     else
       summarized_articles ← process_articles article_ids user_id;
       _ ← lift (if truthy summarized_articles
                 then py_len summarized_articles else Ok 0);
       mret (Response 200 (processed_body summarized_articles session_id)))
    (λ e, mret (Response 500 (error_body (exn_str e)))).

(** ** Accounts  (api_gateway.py, [Signup.post] and [Login.post]) *)

(** [a == b] on objects: a boolean equals the number 0 or 1, also inside
    lists and dictionaries. *)
Fixpoint py_norm (v : value) : value :=
  match v with
  | VBool b => VNum (if b then 1 else 0)
  | VList l => VList (py_norm <$> l)
  | VDict d => VDict (py_norm <$> d)
  | v => v
  end.

Definition py_eq (a b : value) : bool := bool_decide (py_norm a = py_norm b).

(** What writing [data/users.txt] does: [open] fails, [json.dump] fails
    after [open] has emptied the file, or the list is written. *)
Inductive save_outcome :=
  | Saved
  | OpenFails (e : exn)
  | DumpFails (e : exn).

(** The file [data/users.txt] after a request. *)
Inductive users_file :=
  | Untouched
  | Rewritten (users : list value)
  | Truncated.

(** The environment of an account request: the list [load_users()] returns
    (the function belongs to the auth service, which is not part of the
    sources at hand), [str(uuid.uuid4())], and the outcome of the write. *)
Record accounts := Accounts {
  load_users : list value;
  uuid4 : string;
  save : save_outcome
}.

(** [any(u.get('username') == username for u in users)] *)
Fixpoint username_exists (username : value) (users : list value) : result bool :=
  match users with
  | [] => Ok false
  | u :: rest =>
      name ← method_get u "username" VNone;
      if py_eq name username then Ok true else username_exists username rest
  end.

(** The [new_user] dictionary of [Signup.post]. *)
Definition new_user (id : string) (username password email firstName lastName : value)
  : gmap string value :=
  <["id" := VStr id]> (<["username" := username]> (<["password" := password]>
  (<["email" := email]> (<["firstName" := firstName]>
  (<["lastName" := lastName]> ∅))))).

(** The module does [import datetime] and then
    [from datetime import datetime, timedelta]: from there on [datetime]
    names the class, and [datetime.datetime.utcnow()], in the payload of
    both [jwt.encode] calls, raises before a token is made. *)
Definition token_expiry : result value :=
  Raise (AttributeError
           "type object 'datetime.datetime' has no attribute 'datetime'").

(** [({'error': message}, code)] *)
Definition error_only (message : string) : gmap string value :=
  <["error" := VStr message]> ∅.

(** The write of [Signup.post]:
    [try: with open(.., 'w') as f: json.dump(users, f)  except Exception as e]
    and the exception it caught, if any. *)
Definition write_users (env : accounts) (users : list value)
  : py users_file (option exn) := λ file,
  match save env with
  | Saved => (Ok None, Rewritten users)
  | OpenFails e => (Ok (Some e), file)
  | DumpFails e => (Ok (Some e), Truncated)
  end.

(** [Signup.post]; the handler has no [except] clause but around the write,
    so an exception leaves it. *)
Definition Signup_post (env : accounts) (rq : request) : py users_file response :=
  username ← lift (method_get (json rq) "username" VNone);
  password ← lift (method_get (json rq) "password" VNone);
  email ← lift (method_get (json rq) "email" VNone);
  firstName ← lift (method_get (json rq) "firstName" (VStr ""));
  lastName ← lift (method_get (json rq) "lastName" (VStr ""));
  if negb (truthy username) || negb (truthy password) || negb (truthy email)
  then mret (Response 400 (error_only "Username, password, and email are required"))
  else
    let users := load_users env in
    taken ← lift (username_exists username users);
    if (taken : bool)
    then mret (Response 400 (error_only "Username already exists"))
    else
      let user := new_user (uuid4 env) username password email firstName lastName in
      failed ← write_users env (users ++ [VDict user]);
      match failed with
      | Some e =>
          mret (Response 500 (<["error" := VStr "Failed to save user data"]>
                              (<["message" := VStr (exn_str e)]> ∅)))
      | None =>
          exp ← lift token_expiry;
          mret (Response 201
                  (<["message" := VStr "User registered successfully"]>
                  (<["user" := VDict (delete "password" user)]>
                  (<["token" := exp]> ∅))))
      end.



(** ** Bookmarks  (api_gateway.py, [Bookmark] and [BookmarkDelete]) *)

(** [bookmark['id'] if isinstance(bookmark, dict) else bookmark] *)
Definition bookmark_id_of (bookmark : value) : result value :=
  if is_dict bookmark then subscript bookmark "id" else Ok bookmark.

(** [{'status': 'success', 'message': ..., 'data': {'bookmark_id': id}}] *)
Definition bookmark_added_body (id : value) : gmap string value :=
  <["status" := VStr "success"]>
  (<["message" := VStr "Bookmark added successfully"]>
  (<["data" := VDict (<["bookmark_id" := id]> ∅)]> ∅)).

(** [Bookmark.post].  [add_bookmark] is imported from the storage module
    but is not in the sources at hand: the handler is modelled over any such
    function. *)
Definition Bookmark_post (add_bookmark : value → value → py engine value)
    (rq : request) : py engine response :=
  token_required rq
    (try_except
       (payload ← lift (token_payload rq);
        let user_id := dict_get payload "sub" VNone in
        news_id ← lift (method_get (json rq) "news_id" VNone);
        if negb (truthy news_id)
        then mret (Response 400 (error_only "News article ID is required"))
        else
          bookmark ← add_bookmark user_id news_id;
          _ ← lift (bookmark_id_of bookmark);
          id ← lift (bookmark_id_of bookmark);
          mret (Response 201 (bookmark_added_body id)))
       server_error).

(** [BookmarkDelete.delete], over any [delete_bookmark]. *)
Definition BookmarkDelete_delete
    (delete_bookmark : value → value → py engine value)
    (bookmark_id : string) (rq : request) : py engine response :=
  token_required rq
    (try_except
       (payload ← lift (token_payload rq);
        let user_id := dict_get payload "sub" VNone in
        _ ← delete_bookmark user_id (VStr bookmark_id);
        mret (Response 200 (success_message "Bookmark removed successfully")))
       server_error).




(** * Properties of the article store *)

Section store_facts.
Implicit Types (db : supabase) (a r f : gmap string value) (u i : value).

Lemma getitem_Ok a k v : getitem a k = Ok v ↔ a !! k = Some v.
Proof. unfold getitem. destruct (a !! k); split; congruence. Qed.

Lemma getitem_Raise a k e : getitem a k = Raise e ↔ a !! k = None ∧ e = KeyError k.
Proof.
  unfold getitem. destruct (a !! k); split; try congruence.
  - intros [? _]. congruence.
  - intros [= <-]. done.
  - intros [_ ->]. done.
Qed.

(** The fields the insert path reads, when they can all be read. *)
Lemma new_article_fields_Ok a f :
  new_article_fields a = Ok f ↔
  ∃ t s p u, a !! "title" = Some t ∧ source_field a = Ok s ∧
             a !! "publishedAt" = Some p ∧ a !! "url" = Some u ∧
             f = article_row t (dict_get a "summary" (VStr ""))
                   (dict_get a "content" (VStr "")) s p u
                   (dict_get a "urlToImage" (VStr "")).
Proof.
  unfold new_article_fields, article_row, getitem.
  split.
  - destruct (a !! "title") as [t|]; [|discriminate]. simpl.
    destruct (source_field a) as [s|]; [|discriminate]. simpl.
    destruct (a !! "publishedAt") as [p|]; [|discriminate]. simpl.
    destruct (a !! "url") as [u|]; [|discriminate]. simpl.
    intros [= <-]. by exists t, s, p, u.
  - intros (t & s & p & u & -> & -> & -> & -> & ->). done.
Qed.

Lemma new_article_fields_url a f u :
  new_article_fields a = Ok f → a !! "url" = Some u → f !! "url" = Some u.
Proof.
  intros (t & s & p & u' & _ & _ & _ & Hu & ->)%new_article_fields_Ok Ha.
  assert (u' = u) as -> by congruence. done.
Qed.

Lemma select_eq_url_app u (l1 l2 : list (gmap string value)) :
  select_eq_url u (l1 ++ l2) = select_eq_url u l1 ++ select_eq_url u l2.
Proof. apply filter_app. Qed.

Lemma select_eq_url_elem u (l : list (gmap string value)) r :
  r ∈ select_eq_url u l ↔ r !! "url" = Some u ∧ r ∈ l.
Proof. unfold select_eq_url. by rewrite list_elem_of_filter. Qed.

(** ** The lookup branch *)

Lemma store_existing a db u r rest i :
  a !! "url" = Some u →
  select_eq_url u (news_articles db) = r :: rest →
  r !! "id" = Some i →
  store_article_in_supabase a db = (Ok i, db).
Proof.
  intros Ha Hsel Hi.
  unfold store_article_in_supabase, mbind, py_bind, lift, get_store, getitem.
  rewrite Ha. simpl. rewrite Hsel. simpl. by rewrite Hi.
Qed.

(** ** The insert branch *)

Lemma store_fresh a db u f :
  a !! "url" = Some u →
  select_eq_url u (news_articles db) = [] →
  new_article_fields a = Ok f →
  store_article_in_supabase a db =
    (Ok (VNum (Z.of_nat (news_serial db))),
     Supabase (news_articles db ++ [<["id" := VNum (Z.of_nat (news_serial db))]> f])
              (S (news_serial db)) (user_search_history db)).
Proof.
  intros Ha Hsel Hf.
  pose proof (new_article_fields_url _ _ _ Hf Ha) as Hfu.
  unfold store_article_in_supabase, mbind, py_bind, lift, get_store.
  unfold getitem at 1. rewrite Ha. simpl. rewrite Hsel. simpl.
  rewrite Hf. unfold insert_news_article. rewrite Hfu, Hsel. simpl.
  unfold getitem. by rewrite lookup_insert_eq.
Qed.

Lemma store_fresh_fails a db u e :
  a !! "url" = Some u →
  select_eq_url u (news_articles db) = [] →
  new_article_fields a = Raise e →
  store_article_in_supabase a db = (Raise e, db).
Proof.
  intros Ha Hsel Hf.
  unfold store_article_in_supabase, mbind, py_bind, lift, get_store.
  unfold getitem at 1. rewrite Ha. simpl. rewrite Hsel. simpl.
  by rewrite Hf.
Qed.

Lemma store_no_url a db :
  a !! "url" = None →
  store_article_in_supabase a db = (Raise (KeyError "url"), db).
Proof.
  intros Ha.
  unfold store_article_in_supabase, mbind, py_bind, lift, getitem.
  by rewrite Ha.
Qed.
End store_facts.

(** ** Well-formed tables are what the store ever holds *)

Section table_invariant.
Implicit Types (db : supabase) (a r f : gmap string value) (u i : value).

Lemma table_ok_empty : table_ok empty_supabase.
Proof.
  split; simpl.
  - intros r Hr. by apply elem_of_nil in Hr.
  - intros r Hr. by apply elem_of_nil in Hr.
  - intros u. unfold rows_with_url. simpl. lia.
Qed.

Lemma rows_with_url_inserted f db u v :
  f !! "url" = Some u →
  rows_with_url v (inserted f db) =
    rows_with_url v db + (if decide (v = u) then 1 else 0).
Proof.
  intros Hf. unfold rows_with_url, inserted. simpl.
  rewrite select_eq_url_app, length_app. f_equal.
  unfold select_eq_url. rewrite filter_cons, filter_nil.
  rewrite lookup_insert_ne by done. rewrite Hf.
  destruct (decide (v = u)) as [->|Hne].
  - by rewrite decide_True.
  - rewrite decide_False; [done|]. intros [= ->]. done.
Qed.

Lemma table_ok_inserted f db u :
  table_ok db → f !! "url" = Some u →
  select_eq_url u (news_articles db) = [] →
  table_ok (inserted f db).
Proof.
  intros [Hid Hurl Huniq] Hf Hsel. split.
  - intros r [Hr | ->%list_elem_of_singleton]%elem_of_app; simpl.
    + destruct (Hid r Hr) as (n & Hn & Hlt). exists n. split; [done | lia].
    + exists (news_serial db). rewrite lookup_insert_eq. split; [done | lia].
  - intros r [Hr | ->%list_elem_of_singleton]%elem_of_app.
    + by apply Hurl.
    + rewrite lookup_insert_ne by done. by rewrite Hf.
  - intros v. rewrite (rows_with_url_inserted f db u v Hf).
    destruct (decide (v = u)) as [->|_].
    + unfold rows_with_url. rewrite Hsel. simpl. lia.
    + specialize (Huniq v). lia.
Qed.

(** Under the table's constraints, a lookup by url finds no row or one. *)
Lemma select_eq_url_ok db u :
  table_ok db →
  select_eq_url u (news_articles db) = [] ∨
  ∃ r i, select_eq_url u (news_articles db) = [r] ∧ r !! "id" = Some i.
Proof.
  intros [Hid _ Huniq]. specialize (Huniq u). unfold rows_with_url in Huniq.
  destruct (select_eq_url u (news_articles db)) as [|r [|r' rest]] eqn:Hsel.
  - by left.
  - right. assert (r ∈ news_articles db) as Hr.
    { apply (select_eq_url_elem u). rewrite Hsel. apply list_elem_of_here. }
    destruct (Hid r Hr) as (n & Hn & _). eauto.
  - simpl in Huniq. lia.
Qed.

(** The three ways a call with a url can go. *)
Lemma store_cases a db u :
  table_ok db → a !! "url" = Some u →
  (∃ r i, select_eq_url u (news_articles db) = [r] ∧ r !! "id" = Some i ∧
          store_article_in_supabase a db = (Ok i, db))
  ∨ (select_eq_url u (news_articles db) = [] ∧
     ∃ e, new_article_fields a = Raise e ∧
          store_article_in_supabase a db = (Raise e, db))
  ∨ (select_eq_url u (news_articles db) = [] ∧
     ∃ f, new_article_fields a = Ok f ∧
          store_article_in_supabase a db =
            (Ok (VNum (Z.of_nat (news_serial db))), inserted f db)).
Proof.
  intros Hok Ha.
  destruct (select_eq_url_ok db u Hok) as [Hsel | (r & i & Hsel & Hi)].
  - right. destruct (new_article_fields a) as [f|e] eqn:Hf.
    + right. split; [done|]. exists f. split; [done|].
      by apply (store_fresh a db u f).
    + left. split; [done|]. exists e. split; [done|].
      by apply (store_fresh_fails a db u e).
  - left. exists r, i. split_and!; [done..|].
    by apply (store_existing a db u r [] i).
Qed.

Lemma store_preserves_ok a db res db' :
  table_ok db → store_article_in_supabase a db = (res, db') → table_ok db'.
Proof.
  intros Hok Hrun.
  destruct (a !! "url") as [u|] eqn:Ha.
  - destruct (store_cases a db u Hok Ha)
      as [(r & i & _ & _ & Hst) | [(Hsel & e & _ & Hst) | (Hsel & f & Hf & Hst)]];
      rewrite Hst in Hrun; injection Hrun as <- <-; try done.
    apply (table_ok_inserted f db u); [done | | done].
    by apply (new_article_fields_url a).
  - rewrite (store_no_url a db Ha) in Hrun. by injection Hrun as <- <-.
Qed.

End table_invariant.

(** ** Deduplication *)

Section dedup.
Implicit Types (db : supabase) (a r f : gmap string value) (u i : value).

Lemma upsert_all_stored db u r rest i arts :
  select_eq_url u (news_articles db) = r :: rest →
  r !! "id" = Some i →
  Forall (λ a, a !! "url" = Some u) arts →
  upsert_all arts db = ((λ _, Ok i) <$> arts, db).
Proof.
  intros Hsel Hi. induction 1 as [|a arts Ha _ IH]; [done|].
  simpl. rewrite (store_existing a db u r rest i Ha Hsel Hi).
  by rewrite IH.
Qed.

Lemma select_eq_url_inserted f db u :
  f !! "url" = Some u →
  select_eq_url u (news_articles db) = [] →
  select_eq_url u (news_articles (inserted f db)) =
    [<["id" := VNum (Z.of_nat (news_serial db))]> f].
Proof.
  intros Hf Hsel. unfold inserted. simpl.
  rewrite select_eq_url_app, Hsel. simpl.
  unfold select_eq_url. rewrite filter_cons, filter_nil.
  rewrite decide_True; [done|]. by rewrite lookup_insert_ne.
Qed.

(** Calls for one url, from a store that holds no row for it yet. *)
Lemma upsert_all_absent db u arts rs db' :
  table_ok db →
  select_eq_url u (news_articles db) = [] →
  Forall (λ a, a !! "url" = Some u) arts →
  upsert_all arts db = (rs, db') →
  (Forall (λ x, is_ok x = false) rs ∧ db' = db ∧
   Forall (λ a, is_ok (new_article_fields a) = false) arts)
  ∨ (∃ i r, Forall (λ x, is_ok x = true → x = Ok i) rs ∧
            select_eq_url u (news_articles db') = [r] ∧ r !! "id" = Some i ∧
            Exists (λ x, is_ok x = true) rs ∧
            (∀ a rest, arts = a :: rest → is_ok (new_article_fields a) = true →
                       rs = (λ _, Ok i) <$> arts)).
Proof.
  intros Hok Hsel Hall. revert rs db'.
  induction Hall as [|a arts Ha Hall IH]; intros rs db'; simpl.
  - intros [= <- <-]. left. by split_and!.
  - destruct (store_cases a db u Hok Ha)
      as [(r & i & Hsel' & _) | [(_ & e & Hf & Hst) | (_ & f & Hf & Hst)]].
    + congruence.
    + rewrite Hst. destruct (upsert_all arts db) as [rs' db1] eqn:Hrest.
      intros [= <- <-].
      destruct (IH rs' db1 eq_refl)
        as [(Hrs & -> & Harts) | (i & r & Hrs & Hsel1 & Hi & Hex & _)].
      * left. split_and!; [|done|].
        -- by constructor.
        -- constructor; [by rewrite Hf | done].
      * right. exists i, r. split_and!; [|done|done| |].
        -- constructor; [done | done].
        -- by apply Exists_cons_tl.
        -- intros a' rest' [= <- <-]. rewrite Hf. done.
    + rewrite Hst.
      pose proof (new_article_fields_url a f u Hf Ha) as Hfu.
      pose proof (select_eq_url_inserted f db u Hfu Hsel) as Hsel1.
      rewrite (upsert_all_stored (inserted f db) u _ [] (VNum (Z.of_nat (news_serial db)))
                 arts Hsel1 (lookup_insert_eq _ _ _) Hall).
      intros [= <- <-]. right.
      exists (VNum (Z.of_nat (news_serial db))), (<["id" := VNum (Z.of_nat (news_serial db))]> f).
      split_and!.
      * constructor; [done|]. apply Forall_fmap, Forall_true. done.
      * done.
      * apply lookup_insert_eq.
      * by apply Exists_cons_hd.
      * done.
Qed.
End dedup.

(** * The deduplicating store: main results *)

(** C1.  A call of [store_article_in_supabase] for a candidate whose url a
    row of the table already holds returns that row's id and leaves the
    store as it was.  Hence, over any sequence of calls for one url: the
    calls that return all return one and the same id; once a call has
    returned, exactly one row holds the url, and it carries that id; and
    every call returns as soon as the url is stored at the start or the first
    candidate has the fields an insert reads. *)
Theorem upsert_dedup_idempotent (db : supabase) (u : value) :
  table_ok db →
  (∀ (a r : gmap string value),
     a !! "url" = Some u → r ∈ news_articles db → r !! "url" = Some u →
     ∃ i, r !! "id" = Some i ∧ store_article_in_supabase a db = (Ok i, db))
  ∧
  (∀ (arts : list (gmap string value)) rs db',
     Forall (λ a, a !! "url" = Some u) arts →
     upsert_all arts db = (rs, db') →
     ∃ i,
       Forall (λ x, is_ok x = true → x = Ok i) rs ∧
       (Exists (λ x, is_ok x = true) rs →
          rows_with_url u db' = 1 ∧
          ∃ r, r ∈ news_articles db' ∧ r !! "url" = Some u ∧ r !! "id" = Some i) ∧
       ((rows_with_url u db = 1 ∨
         ∃ a rest, arts = a :: rest ∧ is_ok (new_article_fields a) = true) →
          rs = (λ _, Ok i) <$> arts ∧ rows_with_url u db' = 1)).
Proof.
  intros Hok. split.
  - intros a r Ha Hr Hu.
    assert (r ∈ select_eq_url u (news_articles db)) as Hin
      by by apply select_eq_url_elem.
    destruct (select_eq_url_ok db u Hok) as [Hsel | (r0 & i & Hsel & Hi)].
    + rewrite Hsel in Hin. by apply elem_of_nil in Hin.
    + rewrite Hsel in Hin. apply list_elem_of_singleton in Hin as ->.
      exists i. split; [done|]. by apply (store_existing a db u r0 [] i).
  - intros arts rs db' Hall Hrun.
    destruct (select_eq_url_ok db u Hok) as [Hsel | (r0 & i & Hsel & Hi)].
    + destruct (upsert_all_absent db u arts rs db' Hok Hsel Hall Hrun)
        as [(Hrs & -> & Harts) | (i & r & Hrs & Hsel1 & Hi & Hex & Hhd)].
      * exists VNone. split_and!.
        -- eapply Forall_impl; [exact Hrs|]. simpl. intros x -> [=].
        -- intros Hex. apply Exists_exists in Hex as (x & Hx & Hxok).
           rewrite Forall_forall in Hrs. specialize (Hrs x Hx). congruence.
        -- intros [Hone | (a & rest & -> & Hins)].
           ++ unfold rows_with_url in Hone. rewrite Hsel in Hone. done.
           ++ apply Forall_cons_1 in Harts as [Ha _]. congruence.
      * assert (rows_with_url u db' = 1) as Hcount
          by (unfold rows_with_url; by rewrite Hsel1).
        exists i. split_and!; [done| |].
        -- intros _. split; [done|]. exists r.
           assert (r ∈ select_eq_url u (news_articles db')) as Hin
             by (rewrite Hsel1; apply list_elem_of_here).
           apply select_eq_url_elem in Hin as [? ?]. done.
        -- intros [Hone | (a & rest & -> & Hins)].
           ++ unfold rows_with_url in Hone. rewrite Hsel in Hone. done.
           ++ split; [|done]. by apply (Hhd a rest).
    + rewrite (upsert_all_stored db u r0 [] i arts Hsel Hi Hall) in Hrun.
      injection Hrun as <- <-.
      assert (rows_with_url u db = 1) as Hcount
        by (unfold rows_with_url; by rewrite Hsel).
      exists i. split_and!.
      * apply Forall_fmap, Forall_true. done.
      * intros _. split; [done|]. exists r0.
        assert (r0 ∈ select_eq_url u (news_articles db)) as Hin
          by (rewrite Hsel; apply list_elem_of_here).
        apply select_eq_url_elem in Hin as [? ?]. done.
      * done.
Qed.

(** C5.  When a row already holds the candidate's url, the call writes
    nothing: the store after the call is the store before it, so every
    column of the stored row keeps the value of the first write. *)
Theorem upsert_first_write_wins (db : supabase) (a r : gmap string value) (u : value) :
  a !! "url" = Some u →
  r ∈ news_articles db → r !! "url" = Some u →
  (store_article_in_supabase a db).2 = db.
Proof.
  intros Ha Hr Hu.
  assert (r ∈ select_eq_url u (news_articles db)) as Hin
    by by apply select_eq_url_elem.
  destruct (select_eq_url u (news_articles db)) as [|r0 rest] eqn:Hsel.
  { by apply elem_of_nil in Hin. }
  unfold store_article_in_supabase, mbind, py_bind, lift, get_store, getitem.
  rewrite Ha. simpl. rewrite Hsel. simpl. by destruct (r0 !! "id").
Qed.

(** The [source] a new row gets from a candidate: the [name] of a
    dictionary source, the source itself otherwise. *)
Lemma source_field_Ok (a : gmap string value) (s : value) :
  source_field a = Ok s ↔
  (∃ d, a !! "source" = Some (VDict d) ∧ d !! "name" = Some s)
  ∨ (a !! "source" = Some s ∧ is_dict s = false).
Proof.
  unfold source_field, dict_get, getitem, mbind, result_bind.
  destruct (a !! "source") as [v|] eqn:Hv; simpl.
  - destruct v; simpl; unfold getitem;
      try (split; [intros [= <-]; right; done
                  | intros [(d' & [= ?] & _) | [[= <-] _]]; done]).
    split.
    + destruct (d !! "name") as [n|] eqn:Hn; [|done].
      intros [= <-]. left. eauto.
    + intros [(d' & [= <-] & ->) | [[= <-] [=]]]. done.
  - split; [done|]. intros [(d & [=] & _) | [[=] _]].
Qed.

(** C10.  On the insert path (no row holds the candidate's url) the new row
    is appended with the candidate's title, publishedAt and url; its source
    is the [name] of a dictionary source and the raw source otherwise; its
    summary, content and image are the candidate's summary, content and
    urlToImage, the empty string standing for a missing one.  A candidate
    without url, title or publishedAt makes the call raise, and nothing is
    stored. *)
Theorem insert_path_fields (db : supabase) (a : gmap string value) :
  (a !! "url" = None →
     store_article_in_supabase a db = (Raise (KeyError "url"), db))
  ∧
  (∀ u, a !! "url" = Some u → select_eq_url u (news_articles db) = [] →
     (a !! "title" = None →
        store_article_in_supabase a db = (Raise (KeyError "title"), db))
     ∧ (a !! "publishedAt" = None →
        ∃ e, store_article_in_supabase a db = (Raise e, db))
     ∧ (∀ t p s,
          a !! "title" = Some t → a !! "publishedAt" = Some p →
          ((∃ d, a !! "source" = Some (VDict d) ∧ d !! "name" = Some s)
           ∨ (a !! "source" = Some s ∧ is_dict s = false)) →
          ∃ i r db',
            store_article_in_supabase a db = (Ok i, db') ∧
            news_articles db' = news_articles db ++ [r] ∧
            r !! "id" = Some i ∧
            r !! "title" = Some t ∧
            r !! "published_at" = Some p ∧
            r !! "url" = Some u ∧
            r !! "source" = Some s ∧
            r !! "summary" = Some (default (VStr "") (a !! "summary")) ∧
            r !! "content" = Some (default (VStr "") (a !! "content")) ∧
            r !! "image" = Some (default (VStr "") (a !! "urlToImage")))).
Proof.
  split; [apply store_no_url|].
  intros u Ha Hsel. split_and!.
  - intros Ht. apply (store_fresh_fails a db u); [done..|].
    unfold new_article_fields, getitem. by rewrite Ht.
  - intros Hp. destruct (new_article_fields a) as [f|e] eqn:Hf.
    + apply new_article_fields_Ok in Hf as (? & ? & ? & ? & _ & _ & Hp' & _).
      congruence.
    + exists e. by apply (store_fresh_fails a db u).
  - intros t p s Ht Hp Hs. apply source_field_Ok in Hs.
    set (f := article_row t (dict_get a "summary" (VStr ""))
                (dict_get a "content" (VStr "")) s p u
                (dict_get a "urlToImage" (VStr ""))).
    assert (new_article_fields a = Ok f) as Hf.
    { apply new_article_fields_Ok. by exists t, s, p, u. }
    eexists _, _, _. split; [by apply (store_fresh a db u f)|].
    simpl. split; [done|].
    unfold f, article_row, dict_get.
    split_and!; by simplify_map_eq.
Qed.

Example upsert_dedup_idempotent_witness :
  table_ok empty_supabase ∧
  ∃ i db',
    upsert_all [sample_article "https://news.example/ev" "First title";
                sample_article "https://news.example/ev" "Second title"]
               empty_supabase = ([Ok i; Ok i], db') ∧
    rows_with_url (VStr "https://news.example/ev") db' = 1.
Proof.
  split; [exact table_ok_empty|].
  destruct (upsert_dedup_idempotent empty_supabase (VStr "https://news.example/ev")
              table_ok_empty) as [_ Hseq].
  set (arts := [sample_article "https://news.example/ev" "First title";
                sample_article "https://news.example/ev" "Second title"]).
  destruct (upsert_all arts empty_supabase) as [rs db'] eqn:Hrun.
  destruct (Hseq arts rs db' ltac:(repeat constructor) Hrun) as (i & _ & _ & Hall).
  destruct Hall as [-> Hone].
  { right. eexists _, _. split; [reflexivity | by vm_compute]. }
  by exists i, db'.
Defined.

Example upsert_first_write_wins_witness :
  let db := (store_article_in_supabase
               (sample_article "https://news.example/ev" "First title")
               empty_supabase).2 in
  (store_article_in_supabase
     (sample_article "https://news.example/ev" "Second title") db).2 = db.
Proof.
  intros db.
  apply (upsert_first_write_wins db
           (sample_article "https://news.example/ev" "Second title")
           (<["id" := VNum 0]>
              (article_row (VStr "First title") (VStr "") VNone (VStr "BBC News")
                 (VStr "2025-03-01T09:00:00Z") (VStr "https://news.example/ev")
                 (VStr "")))
           (VStr "https://news.example/ev")).
  - reflexivity.
  - vm_compute. apply list_elem_of_here.
  - reflexivity.
Defined.

(** C3, as stated, fails: a candidate whose url is the empty string is not
    refused; on the empty store the call returns and a row is stored. *)
Lemma empty_url_is_stored :
  ¬ (∀ (db : supabase) (a : gmap string value),
       a !! "url" = None ∨ a !! "url" = Some (VStr "") →
       ∃ e, store_article_in_supabase a db = (Raise e, db)).
Proof.
  intros H.
  destruct (H empty_supabase (sample_article "" "Untitled")) as [e He].
  { right. reflexivity. }
  vm_compute in He. discriminate He.
Qed.

(** C3, amended.  A candidate without a url makes the call raise
    [KeyError('url')] (there is no [InvalidArticle] error) and nothing is
    stored.  The empty string is a url like any other: when the candidate
    has the fields of a row, the call returns an id and the store holds one
    row for the url [""]. *)
Theorem upsert_url_required (db : supabase) (a : gmap string value) :
  (a !! "url" = None →
     store_article_in_supabase a db = (Raise (KeyError "url"), db))
  ∧
  (a !! "url" = Some (VStr "") → table_ok db →
   is_ok (new_article_fields a) = true →
     ∃ i db', store_article_in_supabase a db = (Ok i, db') ∧
              rows_with_url (VStr "") db' = 1).
Proof.
  split; [apply store_no_url|].
  intros Ha Hok Hf.
  destruct (store_cases a db (VStr "") Hok Ha)
    as [(r & i & Hsel & _ & Hst) | [(_ & e & He & _) | (Hsel & f & Hf' & Hst)]].
  - exists i, db. split; [done|]. unfold rows_with_url. by rewrite Hsel.
  - rewrite He in Hf. discriminate.
  - eexists _, _. split; [exact Hst|].
    unfold rows_with_url.
    by rewrite (select_eq_url_inserted f db (VStr "")
                  (new_article_fields_url a f _ Hf' Ha) Hsel).
Qed.

Example upsert_url_required_witness :
  (delete "url" (sample_article "" "Untitled") !! "url" = None ∧
   store_article_in_supabase (delete "url" (sample_article "" "Untitled"))
     empty_supabase = (Raise (KeyError "url"), empty_supabase))
  ∧
  (sample_article "" "Untitled" !! "url" = Some (VStr "") ∧
   table_ok empty_supabase ∧
   is_ok (new_article_fields (sample_article "" "Untitled")) = true ∧
   ∃ i db', store_article_in_supabase (sample_article "" "Untitled")
              empty_supabase = (Ok i, db') ∧
            rows_with_url (VStr "") db' = 1).
Proof.
  split.
  - split; [reflexivity|].
    apply (upsert_url_required empty_supabase
             (delete "url" (sample_article "" "Untitled"))). reflexivity.
  - split_and!; [reflexivity | exact table_ok_empty | by vm_compute |].
    apply (upsert_url_required empty_supabase (sample_article "" "Untitled"));
      [reflexivity | exact table_ok_empty | by vm_compute].
Defined.

Example insert_path_fields_witness :
  ∃ i r db',
    store_article_in_supabase (sample_article "https://news.example/ev" "First title")
      empty_supabase = (Ok i, db') ∧
    news_articles db' = [r] ∧
    r !! "source" = Some (VStr "BBC News") ∧
    r !! "summary" = Some (VStr "") ∧
    r !! "content" = Some VNone.
Proof.
  destruct (insert_path_fields empty_supabase
              (sample_article "https://news.example/ev" "First title")) as [_ H].
  destruct (H (VStr "https://news.example/ev") eq_refl eq_refl) as (_ & _ & Hrow).
  destruct (Hrow (VStr "First title") (VStr "2025-03-01T09:00:00Z") (VStr "BBC News")
              eq_refl eq_refl) as (i & r & db' & Hst & Hrows & _ & _ & _ & _ & Hs & Hsum & Hc & _).
  { left. eexists. split; reflexivity. }
  exists i, r, db'. split_and!; done.
Defined.

(** * The news resource on a failed fetch *)

(** C4.  A failed provider request is caught inside [fetch_news], which
    then evaluates to [None]; [NewsFetch.get] iterates over that value, and
    what the client gets is the 500 response of its exception handler, not
    the success response of an empty candidate list. *)
Theorem news_fetch_on_provider_failure
    (provider : string → provider_response) (rq : request) (db : supabase) :
  provider_failed (provider (default "" (args rq !! "keyword"))) →
  fetch_news provider (default "" (args rq !! "keyword")) = Ok VNone ∧
  NewsFetch_get provider rq db =
    (Ok (Response 500 (error_body "'NoneType' object is not iterable")), db).
Proof.
  intros Hfail.
  assert (fetch_news provider (default "" (args rq !! "keyword")) = Ok VNone) as Hnone.
  { unfold fetch_news.
    destruct (provider (default "" (args rq !! "keyword"))) as [msg|code|v]; try done.
    destruct v as [| | | | |d]; try done. simpl in Hfail. simpl.
    rewrite bool_decide_false; [done|].
    unfold dict_get. destruct (d !! "status") as [v|]; [|done].
    intros ->. done. }
  split; [done|].
  unfold NewsFetch_get, try_except, mbind, py_bind, lift. simpl. rewrite Hnone. done.
Qed.

Example news_fetch_on_provider_failure_witness :
  provider_failed (failing_provider "") ∧
  NewsFetch_get failing_provider (sample_request "alice" VNone) empty_supabase =
    (Ok (Response 500 (error_body "'NoneType' object is not iterable")),
     empty_supabase).
Proof.
  split; [exact I|].
  apply (news_fetch_on_provider_failure failing_provider
           (sample_request "alice" VNone) empty_supabase).
  exact I.
Defined.

(** With a fetch that succeeds and finds nothing, the same resource answers
    200 with an empty list of ids. *)
Lemma news_fetch_no_articles (rq : request) (db : supabase) :
  NewsFetch_get (λ _, JsonBody (VDict (<["status" := VStr "ok"]> ∅))) rq db =
    (Ok (Response 200 (success_body (VList []))), db).
Proof. reflexivity. Qed.

(** * The relatedness matcher *)

Section matcher.
Implicit Types (k s : list Ascii.ascii).

Lemma starts_with_spec k s : starts_with k s = true ↔ ∃ post, s = k ++ post.
Proof.
  revert s. induction k as [|c k IH]; intros s; simpl.
  - split; [eauto | done].
  - destruct s as [|d s].
    + split; [done | intros [post [=]]].
    + rewrite andb_true_iff, bool_decide_eq_true, IH. split.
      * intros [-> [post ->]]. eauto.
      * intros [post [= -> ->]]. eauto.
Qed.

Lemma contains_spec k s : contains k s = true ↔ occurs k s.
Proof.
  unfold occurs. induction s as [|d s IH]; simpl.
  - rewrite orb_false_r, starts_with_spec. split.
    + intros [post ->]. by exists [], post.
    + intros (pre & post & H). symmetry in H.
      apply app_eq_nil in H as [-> H]. exists post. done.
  - rewrite orb_true_iff, starts_with_spec, IH. split.
    + intros [[post ->] | (pre & post & ->)].
      * by exists [], post.
      * by exists (d :: pre), post.
    + intros ([|c pre] & post & H).
      * left. exists post. done.
      * right. injection H as -> ->. eauto.
Qed.

Lemma lstrip_blank s : Forall (λ c, is_space c = true) s → lstrip s = [].
Proof. induction 1 as [|c s Hc _ IH]; [done|]. simpl. by rewrite Hc. Qed.

Lemma lstrip_spec s :
  ∃ l, s = l ++ lstrip s ∧ Forall (λ c, is_space c = true) l ∧
       ∀ c, head (lstrip s) = Some c → is_space c = false.
Proof.
  induction s as [|a s (l & Hs & Hl & Hhd)]; simpl.
  - exists []. by split_and!.
  - destruct (is_space a) eqn:Ha.
    + exists (a :: l). split_and!; [by rewrite Hs at 1 | by constructor | done].
    + exists []. split_and!; [done | done |]. simpl. intros c [= <-]. done.
Qed.

(** [strip] removes the whitespace at both ends, and nothing else. *)
Lemma strip_spec s :
  ∃ l r, s = l ++ strip s ++ r ∧
         Forall (λ c, is_space c = true) l ∧ Forall (λ c, is_space c = true) r ∧
         (∀ c, head (strip s) = Some c → is_space c = false) ∧
         (∀ c, last (strip s) = Some c → is_space c = false).
Proof.
  destruct (lstrip_spec s) as (l & Hs & Hl & Hhd).
  destruct (lstrip_spec (reverse (lstrip s))) as (r & Ht & Hr & Hhd').
  assert (lstrip s = strip s ++ reverse r) as Hmid.
  { unfold strip. rewrite <- reverse_app, <- Ht. by rewrite reverse_involutive. }
  exists l, (reverse r). split_and!.
  - by rewrite <- Hmid.
  - done.
  - by apply Forall_reverse.
  - intros c Hc. apply Hhd. rewrite Hmid.
    destruct (strip s); [done|]. done.
  - intros c Hc. apply Hhd'. unfold strip in Hc. by rewrite last_reverse in Hc.
Qed.

Lemma normalize_blank (keyword : string) : blank keyword → normalize keyword = [].
Proof.
  unfold blank, normalize, strip. intros H. by rewrite (lstrip_blank _ H).
Qed.

Lemma field_text_missing (a : gmap string value) (f : string) :
  a !! f = None ∨ a !! f = Some VNone → field_text a f = [].
Proof. unfold field_text. by intros [-> | ->]. Qed.
End matcher.

(** C2.  [is_related story article] holds exactly when the story's keyword,
    trimmed and in lower case, is not empty and occurs as a substring of the
    lower-cased title, content or summary of the article.  A keyword that is
    empty or made of whitespace matches no article; a missing or null
    content (or summary, or title) counts as the empty string.  The spec's
    two examples for the keyword "AI" come out as stated. *)
Theorem is_related_spec (story : TrackedStory) (article : gmap string value) :
  (is_related story article = true ↔
     normalize (keyword story) ≠ [] ∧
     (occurs (normalize (keyword story)) (lower (field_text article "title"))
      ∨ occurs (normalize (keyword story)) (lower (field_text article "content"))
      ∨ occurs (normalize (keyword story)) (lower (field_text article "summary"))))
  ∧ (blank (keyword story) → is_related story article = false)
  ∧ (∀ f, f ∈ ["title"; "content"; "summary"] →
       article !! f = None ∨ article !! f = Some VNone →
       is_related story article = is_related story (<[f := VStr ""]> article))
  ∧ (keyword story = "AI" →
       (article !! "title" = Some (VStr "ai breakthroughs") →
          is_related story article = true)
       ∧ (article !! "title" = Some (VStr "unrelated topic") →
          article !! "content" = Some (VStr "") → article !! "summary" = None →
          is_related story article = false)).
Proof.
  split_and!.
  - unfold is_related. destruct (normalize (keyword story)) as [|c k] eqn:Hk.
    + split; [done | intros [? _]; done].
    + rewrite !orb_true_iff, !contains_spec. split; [|tauto].
      intros ?. split; [done | tauto].
  - intros Hb. unfold is_related. by rewrite (normalize_blank _ Hb).
  - intros f Hf Hmiss.
    assert (∀ g, field_text (<[f := VStr ""]> article) g = field_text article g) as Heq.
    { intros g. unfold field_text. destruct (decide (f = g)) as [<-|Hne].
      - rewrite lookup_insert_eq. by destruct Hmiss as [-> | ->].
      - by rewrite lookup_insert_ne. }
    unfold is_related. by rewrite !Heq.
  - intros Hk. unfold is_related, field_text. rewrite Hk. split.
    + intros ->. done.
    + intros -> -> ->. done.
Qed.

(** * Invariants of the reachable states *)

Section preservation.
Context {S : Type} {I : S → Prop}.

Lemma preserves_ret {A} (a : A) : preserves I (mret a).
Proof. by intros s Hs. Qed.

Lemma preserves_raise {A} (err : exn) : preserves I (raise (A:=A) err).
Proof. by intros s Hs. Qed.

Lemma preserves_lift {A} (r : result A) : preserves I (lift r).
Proof. by intros s Hs. Qed.

Lemma preserves_get_store : preserves I get_store.
Proof. by intros s Hs. Qed.

Lemma preserves_bind {A B} (c : py S A) (f : A → py S B) :
  preserves I c → (∀ a, preserves I (f a)) → preserves I (c ≫= f).
Proof.
  intros Hc Hf s Hs. unfold mbind, py_bind.
  specialize (Hc s Hs). destruct (c s) as [[a|err] s']; simpl in *.
  - by apply Hf.
  - done.
Qed.

Lemma preserves_try_except {A} (c : py S A) (h : exn → py S A) :
  preserves I c → (∀ err, preserves I (h err)) → preserves I (try_except c h).
Proof.
  intros Hc Hh s Hs. unfold try_except.
  specialize (Hc s Hs). destruct (c s) as [[a|err] s']; simpl in *.
  - done.
  - by apply Hh.
Qed.
End preservation.

(** ** The storage module keeps the table's constraints *)

Section storage_invariant.

Lemma store_article_keeps_table_ok a :
  preserves table_ok (store_article_in_supabase a).
Proof.
  intros db Hdb. destruct (store_article_in_supabase a db) as [res db'] eqn:Hrun.
  by apply (store_preserves_ok a db res db').
Qed.

Lemma log_user_search_keeps_table_ok now user_id news_id session_id :
  preserves table_ok (log_user_search now user_id news_id session_id).
Proof. intros db [Hid Hurl Huniq]. by split. Qed.

Lemma store_one_keeps_table_ok rq user_id session_id ids article :
  preserves table_ok (store_one rq user_id session_id ids article).
Proof.
  unfold store_one. destruct article; try apply preserves_raise.
  apply preserves_bind; [apply store_article_keeps_table_ok|].
  intros article_id. cbv zeta. destruct (truthy user_id).
  - apply preserves_bind; [apply log_user_search_keeps_table_ok|].
    intros _. apply preserves_ret.
  - apply preserves_ret.
Qed.

Lemma store_all_keeps_table_ok rq user_id session_id ids articles :
  preserves table_ok (store_all rq user_id session_id ids articles).
Proof.
  revert ids. induction articles as [|article rest IH]; intros ids; simpl.
  - apply preserves_ret.
  - apply preserves_bind; [apply store_one_keeps_table_ok | done].
Qed.

Lemma NewsFetch_get_keeps_table_ok provider rq :
  preserves table_ok (NewsFetch_get provider rq).
Proof.
  unfold NewsFetch_get. apply preserves_try_except.
  - cbv zeta.
    apply preserves_bind; [apply preserves_lift|]. intros articles.
    apply preserves_bind; [apply preserves_lift|]. intros _.
    apply preserves_bind; [apply preserves_lift|]. intros items.
    apply preserves_bind; [apply store_all_keeps_table_ok|]. intros ids.
    apply preserves_ret.
  - intros err. apply preserves_ret.
Qed.

(** [on_store] carries an invariant of the store to the engine. *)
Lemma on_store_keeps_store_ok {A} (c : py supabase A) :
  preserves table_ok c → preserves store_ok (on_store c).
Proof.
  intros Hc e He. unfold on_store, store_ok in *.
  specialize (Hc (store e) He). by destruct (c (store e)) as [r s].
Qed.
End storage_invariant.

(** ** What the operations keep *)

(** An invariant of the engine that the storage calls, the linking of a pair
    and the writes of the story table keep is kept by every operation. *)
Section engine_invariant.
Context {I : engine → Prop}.
Hypothesis I_news :
  ∀ provider rq, preserves I (on_store (NewsFetch_get provider rq)).
Hypothesis I_upsert :
  ∀ a, preserves I (on_store (store_article_in_supabase a)).
Hypothesis I_link : ∀ now sid aid, preserves I (link_story_article now sid aid).
Hypothesis I_insert :
  ∀ now user_id k seed, preserves I (insert_tracked_story now user_id k seed).
Hypothesis I_delete :
  ∀ user_id sid, preserves I (delete_tracked_story user_id sid).

Lemma match_and_link_preserves now story cnt candidate :
  preserves I (match_and_link now story cnt candidate).
Proof.
  unfold match_and_link. destruct candidate; try apply preserves_raise.
  apply preserves_bind; [apply I_upsert|].
  intros article_id. destruct (is_related story d).
  - apply preserves_bind; [apply I_link|].
    intros outcome. apply preserves_ret.
  - apply preserves_ret.
Qed.

Lemma match_and_link_all_preserves now story cnt candidates :
  preserves I (match_and_link_all now story cnt candidates).
Proof.
  revert cnt. induction candidates as [|c rest IH]; intros cnt; simpl.
  - apply preserves_ret.
  - apply preserves_bind; [apply match_and_link_preserves | done].
Qed.

Lemma find_related_articles_preserves provider now story :
  preserves I (find_related_articles provider now story).
Proof.
  unfold find_related_articles.
  destruct (normalize (keyword story)); [apply preserves_ret|].
  destruct (fetch_news provider (keyword story)) as [fetched|err];
    [|apply preserves_raise].
  destruct fetched; try apply preserves_raise.
  apply match_and_link_all_preserves.
Qed.

Lemma create_tracked_story_preserves provider now user_id kw src :
  preserves I (create_tracked_story provider now user_id kw src).
Proof.
  unfold create_tracked_story. destruct kw; try apply preserves_raise.
  case_bool_decide; [apply preserves_raise|].
  apply preserves_bind; [apply I_insert|].
  intros story. apply preserves_bind.
  { destruct src; try apply I_link. apply preserves_ret. }
  intros _. apply preserves_bind; [apply find_related_articles_preserves|].
  intros _. apply preserves_ret.
Qed.

Lemma refresh_each_preserves provider now rep stories :
  preserves I (refresh_each provider now rep stories).
Proof.
  revert rep. induction stories as [|story rest IH]; intros rep; simpl.
  - apply preserves_ret.
  - apply preserves_bind; [|done]. unfold refresh_one.
    apply preserves_try_except.
    + apply preserves_bind; [apply find_related_articles_preserves|].
      intros cnt. apply preserves_ret.
    + intros err. apply preserves_ret.
Qed.

Lemma update_all_tracked_stories_preserves provider now :
  preserves I (update_all_tracked_stories provider now).
Proof.
  intros e He. unfold update_all_tracked_stories.
  by apply refresh_each_preserves.
Qed.

Lemma token_required_preserves rq (f : py engine response) :
  preserves I f → preserves I (token_required rq f).
Proof.
  intros Hf. unfold token_required. destruct (auth rq); try apply preserves_ret.
  apply preserves_try_except; [done|]. intros err. apply preserves_ret.
Qed.

Lemma StoryTracking_post_preserves provider rq :
  preserves I (StoryTracking_post provider rq).
Proof.
  apply token_required_preserves, preserves_try_except;
    [|intros; apply preserves_ret].
  apply preserves_bind; [apply preserves_lift|]. intros payload.
  apply preserves_bind; [apply preserves_lift|]. intros kw.
  apply preserves_bind; [apply preserves_lift|]. intros src.
  destruct (negb (truthy kw)); [apply preserves_ret|].
  apply preserves_bind; [apply create_tracked_story_preserves|]. intros story.
  apply preserves_bind; [apply preserves_get_store|]. intros e'.
  apply preserves_bind; [apply preserves_lift|]. intros _.
  apply preserves_ret.
Qed.

Lemma StoryTrackingDetail_get_preserves sid rq :
  preserves I (StoryTrackingDetail_get sid rq).
Proof.
  apply token_required_preserves, preserves_try_except;
    [|intros; apply preserves_ret].
  apply preserves_bind; [apply preserves_get_store|]. intros e'. cbv zeta.
  destruct (negb (truthy (story_details_value sid e'))); [apply preserves_ret|].
  apply preserves_bind; [apply preserves_lift|]. intros _.
  apply preserves_bind; [apply preserves_lift|]. intros _.
  apply preserves_ret.
Qed.

Lemma StoryTrackingDetail_delete_preserves sid rq :
  preserves I (StoryTrackingDetail_delete sid rq).
Proof.
  apply token_required_preserves, preserves_try_except;
    [|intros; apply preserves_ret].
  apply preserves_bind; [apply preserves_lift|]. intros payload.
  apply preserves_bind; [apply I_delete|]. intros b.
  destruct (negb b); apply preserves_ret.
Qed.

Lemma run_preserves op e : I e → I (run op e).
Proof.
  destruct op; simpl; intros He.
  - by apply I_news.
  - by apply StoryTracking_post_preserves.
  - by apply StoryTrackingDetail_get_preserves.
  - by apply StoryTrackingDetail_delete_preserves.
  - by apply create_tracked_story_preserves.
  - by apply I_delete.
  - by apply update_all_tracked_stories_preserves.
  - by apply I_link.
Qed.

Lemma reachable_invariant e : I empty_engine → reachable e → I e.
Proof.
  intros Hinit. induction 1 as [|op e _ IH]; [done|]. by apply run_preserves.
Qed.
End engine_invariant.

(** ** The link table *)

Section link_table.
Implicit Types (e : engine) (sid : string) (aid : value).

Lemma is_linked_true sid aid links :
  is_linked sid aid links = true ↔ (sid, aid) ∈ link_pair <$> links.
Proof. unfold is_linked. apply bool_decide_eq_true. Qed.

Lemma link_existing now sid aid e :
  (sid, aid) ∈ link_pair <$> story_article_links e →
  link_story_article now sid aid e = (Ok AlreadyLinked, e).
Proof.
  intros Hin. unfold link_story_article.
  by rewrite (proj2 (is_linked_true _ _ _) Hin).
Qed.

Lemma link_new now sid aid e :
  (sid, aid) ∉ link_pair <$> story_article_links e →
  link_story_article now sid aid e =
    (Ok Linked, Engine (store e) (tracked_stories e)
                       (story_article_links e ++ [Build_StoryArticleLink sid aid now])).
Proof.
  intros Hin. unfold link_story_article.
  destruct (is_linked sid aid (story_article_links e)) eqn:Hl; [|done].
  by apply is_linked_true in Hl.
Qed.

Lemma link_preserves_unique now sid aid :
  preserves links_unique (link_story_article now sid aid).
Proof.
  intros e He.
  destruct (decide ((sid, aid) ∈ link_pair <$> story_article_links e)) as [Hin|Hin].
  - by rewrite link_existing.
  - rewrite link_new by done. unfold links_unique. simpl.
    rewrite fmap_app. apply NoDup_app. split_and!.
    + done.
    + intros p Hp ->%list_elem_of_singleton. done.
    + apply NoDup_singleton.
Qed.

(** Rows for a pair, in a table without duplicates. *)
Lemma links_of_unique sid aid e :
  links_unique e →
  links_of sid aid e = if is_linked sid aid (story_article_links e) then 1 else 0.
Proof.
  unfold links_unique, links_of, is_linked.
  induction (story_article_links e) as [|l links IH]; [done|].
  rewrite fmap_cons, NoDup_cons. intros [Hnotin Hnd].
  rewrite filter_cons. destruct (decide (link_pair l = (sid, aid))) as [Heq|Hne].
  - simpl. rewrite (IH Hnd). rewrite <- Heq in *.
    rewrite (bool_decide_false _ Hnotin).
    rewrite bool_decide_true; [done|]. apply list_elem_of_here.
  - rewrite (IH Hnd). apply f_equal with (f := λ b : bool, if b then 1 else 0).
    apply bool_decide_ext. rewrite elem_of_cons. intuition congruence.
Qed.

Lemma on_store_keeps_links_unique {A} (c : py supabase A) :
  preserves links_unique (on_store c).
Proof. intros e He. unfold on_store. by destruct (c (store e)) as [r s]. Qed.

Lemma delete_keeps_links_unique user_id sid :
  preserves links_unique (delete_tracked_story user_id sid).
Proof.
  intros e He. unfold delete_tracked_story.
  destruct (tracked_stories e !! sid) as [story|]; [|done].
  by destruct (_ && _).
Qed.

Lemma reachable_links_unique e : reachable e → links_unique e.
Proof.
  apply reachable_invariant.
  - intros provider rq. apply on_store_keeps_links_unique.
  - intros a. apply on_store_keeps_links_unique.
  - apply link_preserves_unique.
  - by intros now user_id k seed e' He'.
  - apply delete_keeps_links_unique.
  - apply NoDup_nil_2.
Qed.

End link_table.

(** Every reachable store satisfies the constraints of its table. *)
Lemma reachable_store_ok e : reachable e → store_ok e.
Proof.
  apply reachable_invariant.
  - intros provider rq.
    apply on_store_keeps_store_ok, NewsFetch_get_keeps_table_ok.
  - intros a. apply on_store_keeps_store_ok, store_article_keeps_table_ok.
  - intros now sid aid e' He'. unfold link_story_article.
    by destruct (is_linked _ _ _).
  - by intros now user_id k seed e' He'.
  - intros user_id sid e' He'. unfold delete_tracked_story.
    destruct (tracked_stories e' !! sid) as [story|]; [|done].
    by destruct (_ && _).
  - apply table_ok_empty.
Qed.


(** C6.  In every reachable state a (story, article) pair has at most one
    row in the link table.  Linking a pair that is already linked raises
    nothing, answers [AlreadyLinked] and leaves the state as it was, with its
    one row for the pair; so linking any pair, once or twice, leaves exactly
    one row for it. *)
Theorem link_idempotence (e : engine) :
  reachable e →
  (∀ sid aid, links_of sid aid e ≤ 1)
  ∧ (∀ now sid aid,
       (sid, aid) ∈ link_pair <$> story_article_links e →
       link_story_article now sid aid e = (Ok AlreadyLinked, e) ∧
       links_of sid aid e = 1)
  ∧ (∀ now now' sid aid,
       is_ok (link_story_article now sid aid e).1 = true ∧
       link_story_article now' sid aid (link_story_article now sid aid e).2 =
         (Ok AlreadyLinked, (link_story_article now sid aid e).2) ∧
       links_of sid aid (link_story_article now sid aid e).2 = 1).
Proof.
  intros Hreach. pose proof (reachable_links_unique e Hreach) as Huniq.
  assert (∀ e' sid aid, links_unique e' →
            (sid, aid) ∈ link_pair <$> story_article_links e' →
            links_of sid aid e' = 1) as Hone.
  { intros e' sid aid He' Hin. rewrite links_of_unique by done.
    by rewrite (proj2 (is_linked_true _ _ _) Hin). }
  split_and!.
  - intros sid aid. rewrite links_of_unique by done.
    destruct (is_linked sid aid (story_article_links e)); lia.
  - intros now sid aid Hin. split; [by apply link_existing | by apply Hone].
  - intros now now' sid aid.
    pose proof (link_preserves_unique now sid aid e Huniq) as Huniq'.
    assert ((sid, aid) ∈ link_pair <$>
              story_article_links (link_story_article now sid aid e).2) as Hin.
    { destruct (decide ((sid, aid) ∈ link_pair <$> story_article_links e)) as [Hin|Hin].
      - by rewrite link_existing.
      - rewrite link_new by done. simpl. rewrite fmap_app, elem_of_app.
        right. apply list_elem_of_here. }
    split_and!.
    + unfold link_story_article. by destruct (is_linked _ _ _).
    + by apply link_existing.
    + by apply Hone.
Qed.

Example link_idempotence_witness :
  let e := run (CallRefreshAll sample_provider "2025-03-03T00:00:00")
             (run (CallCreate sample_provider "2025-03-02T10:00:00" (VStr "alice")
                     (VStr "electric vehicles") VNone) empty_engine) in
  reachable e ∧
  length (story_article_links e) = 1 ∧
  link_story_article "2025-03-04T00:00:00" "0" (VNum 0) e = (Ok AlreadyLinked, e) ∧
  links_of "0" (VNum 0) e = 1.
Proof.
  intros e.
  assert (reachable e) as Hreach by (do 2 apply reachable_run; apply reachable_empty).
  split; [exact Hreach|]. split; [by vm_compute|].
  destruct (link_idempotence e Hreach) as (_ & Hagain & _).
  apply (Hagain "2025-03-04T00:00:00" "0" (VNum 0)).
  vm_compute. apply list_elem_of_here.
Defined.

(** * Story lifecycle: details, deletion, creation *)

Section lifecycle.
Implicit Types (e : engine) (sid : string) (rq : request).

Lemma get_story_details_None sid e :
  get_story_details sid e = None ↔
  tracked_stories e !! sid = None
  ∨ ∃ story, tracked_stories e !! sid = Some story ∧ status story = DELETED.
Proof.
  unfold get_story_details.
  destruct (tracked_stories e !! sid) as [story|]; [|by split; [left|]].
  destruct (status story) eqn:Hst.
  - split; [done|]. intros [[=] | (s' & [= <-] & Hs')]. congruence.
  - split; [|done]. intros _. right. eauto.
Qed.

(** The detail resource on a story that [get_story_details] does not
    find. *)
Lemma detail_get_not_found sid rq payload e :
  auth rq = ValidToken payload →
  get_story_details sid e = None →
  StoryTrackingDetail_get sid rq e =
    (Ok (Response 404 (error_body "Tracked story not found")), e).
Proof.
  intros Hauth Hnone.
  unfold StoryTrackingDetail_get, token_required. rewrite Hauth.
  unfold try_except, mbind, py_bind, get_store, story_details_value.
  by rewrite Hnone.
Qed.

Lemma delete_tracked_story_true user_id sid e e' :
  delete_tracked_story user_id sid e = (Ok true, e') →
  ∃ story, tracked_stories e !! sid = Some story ∧
           status story = ACTIVE ∧ owner_user_id story = user_id ∧
           e' = Engine (store e) (<[sid := mark_deleted story]> (tracked_stories e))
                       (story_article_links e).
Proof.
  unfold delete_tracked_story.
  destruct (tracked_stories e !! sid) as [story|]; [|done].
  destruct (bool_decide (status story = ACTIVE)) eqn:Hs; [|done].
  destruct (bool_decide (owner_user_id story = user_id)) eqn:Ho; [|done].
  simpl. intros [= <-]. exists story.
  apply bool_decide_eq_true in Hs, Ho. done.
Qed.

Lemma delete_tracked_story_false user_id sid e :
  (tracked_stories e !! sid = None
   ∨ ∃ story, tracked_stories e !! sid = Some story ∧
              (status story = DELETED ∨ owner_user_id story ≠ user_id)) →
  delete_tracked_story user_id sid e = (Ok false, e).
Proof.
  unfold delete_tracked_story.
  intros [-> | (story & -> & Hwhy)]; [done|].
  destruct Hwhy as [Hs | Ho].
  - rewrite (bool_decide_false (status story = ACTIVE)); [done | congruence].
  - rewrite (bool_decide_false (owner_user_id story = user_id)) by done.
    by rewrite andb_false_r.
Qed.

(** The delete resource when the service answers [false]. *)
Lemma detail_delete_not_found sid rq payload e :
  auth rq = ValidToken payload →
  delete_tracked_story (dict_get payload "sub" VNone) sid e = (Ok false, e) →
  StoryTrackingDetail_delete sid rq e =
    (Ok (Response 404
           (error_body "Failed to delete tracked story or story not found")), e).
Proof.
  intros Hauth Hdel.
  unfold StoryTrackingDetail_delete, token_required, token_payload.
  rewrite Hauth. unfold try_except, mbind, py_bind, lift. by rewrite Hdel.
Qed.

(** The story table after a creation holds the new story, ACTIVE, under a
    fresh id. *)
Lemma create_tracked_story_state provider now user_id k src e :
  k ≠ "" →
  let sid := fresh (dom (tracked_stories e)) in
  let story := Build_TrackedStory sid user_id k now ACTIVE
                 (match src with VNone => None | v => Some v end) in
  tracked_stories e !! sid = None ∧
  tracked_stories
    (create_tracked_story provider now user_id (VStr k) src e).2 !! sid = Some story.
Proof.
  intros Hk sid story. split.
  { apply not_elem_of_dom, is_fresh. }
  unfold create_tracked_story. rewrite bool_decide_false by done.
  set (I := λ e', tracked_stories e' !! sid = Some story).
  assert (∀ now' sid' aid, preserves I (link_story_article now' sid' aid)) as Hlink.
  { intros now' sid' aid e' He'. unfold link_story_article.
    by destruct (is_linked _ _ _). }
  assert (∀ s, preserves I (find_related_articles provider now s)) as Hpass.
  { intros s. apply find_related_articles_preserves; [|done].
    intros a e' He'. unfold on_store.
    by destruct (store_article_in_supabase a (store e')) as [r s']. }
  unfold mbind at 1, py_bind at 1. unfold insert_tracked_story. fold sid. fold story.
  cbv zeta.
  match goal with
  | |- tracked_stories (?c ?e1).2 !! _ = _ =>
      change (I (c e1).2); assert (preserves I c) as Hc
  end.
  { apply preserves_bind.
    { destruct src; try apply Hlink. apply preserves_ret. }
    intros _. apply preserves_bind; [apply Hpass|]. intros _. apply preserves_ret. }
  apply Hc. unfold I. simpl. apply lookup_insert_eq.
Qed.

(** The create resource, past its keyword check, leaves the state the
    service leaves. *)
Lemma story_post_state provider rq payload d e :
  auth rq = ValidToken payload → json rq = VDict d →
  truthy (dict_get d "keyword" VNone) = true →
  (StoryTracking_post provider rq e).2 =
    (create_tracked_story provider (now rq) (dict_get payload "sub" VNone)
       (dict_get d "keyword" VNone) (dict_get d "sourceArticleId" VNone) e).2.
Proof.
  intros Hauth Hjson Hkw.
  unfold StoryTracking_post, token_required, token_payload.
  rewrite Hauth, Hjson. unfold try_except, mbind, py_bind, lift. simpl.
  rewrite Hkw. simpl.
  destruct (create_tracked_story _ _ _ _ _ e) as [[story|err] e1]; simpl; [|done].
  unfold get_store. simpl.
  match goal with |- context [if ?b then ?x else ?y] =>
    by destruct (if b then x else y) end.
Qed.

Lemma story_post_bad_keyword provider rq payload d e :
  auth rq = ValidToken payload → json rq = VDict d →
  truthy (dict_get d "keyword" VNone) = false →
  StoryTracking_post provider rq e =
    (Ok (Response 400 (error_body "Keyword is required")), e).
Proof.
  intros Hauth Hjson Hkw.
  unfold StoryTracking_post, token_required, token_payload.
  rewrite Hauth, Hjson. unfold try_except, mbind, py_bind, lift. simpl.
  by rewrite Hkw.
Qed.
End lifecycle.

(** C7.  For a story id that the story table does not hold, or whose story
    is DELETED, [get_story_details] finds nothing and the detail resource
    (called with a valid token) answers 404 and changes nothing.  This is
    the case after a successful [delete_tracked_story] of that id. *)
Theorem deleted_story_not_found (sid : string) (e : engine) :
  (tracked_stories e !! sid = None
   ∨ (∃ story, tracked_stories e !! sid = Some story ∧ status story = DELETED) →
   get_story_details sid e = None
   ∧ ∀ rq payload, auth rq = ValidToken payload →
       StoryTrackingDetail_get sid rq e =
         (Ok (Response 404 (error_body "Tracked story not found")), e))
  ∧
  (∀ user_id e', delete_tracked_story user_id sid e = (Ok true, e') →
   get_story_details sid e' = None
   ∧ ∀ rq payload, auth rq = ValidToken payload →
       StoryTrackingDetail_get sid rq e' =
         (Ok (Response 404 (error_body "Tracked story not found")), e')).
Proof.
  assert (∀ e0, get_story_details sid e0 = None →
            get_story_details sid e0 = None
            ∧ ∀ rq payload, auth rq = ValidToken payload →
                StoryTrackingDetail_get sid rq e0 =
                  (Ok (Response 404 (error_body "Tracked story not found")), e0)) as H.
  { intros e0 Hnone. split; [done|]. intros rq payload Hauth.
    by apply (detail_get_not_found sid rq payload). }
  split.
  - intros Hgone. apply H. by apply get_story_details_None.
  - intros user_id e' (story & Hs & _ & _ & ->)%delete_tracked_story_true.
    apply H. apply get_story_details_None. right.
    exists (mark_deleted story). simpl. by rewrite lookup_insert_eq.
Qed.

Example deleted_story_not_found_witness :
  let e := (create_tracked_story sample_provider "2025-03-02T10:00:00" (VStr "alice")
              (VStr "electric vehicles") VNone empty_engine).2 in
  let e' := (delete_tracked_story (VStr "alice") "0" e).2 in
  get_story_details "0" e ≠ None ∧
  delete_tracked_story (VStr "alice") "0" e = (Ok true, e') ∧
  get_story_details "0" e' = None ∧
  StoryTrackingDetail_get "0" (sample_request "bob" VNone) e' =
    (Ok (Response 404 (error_body "Tracked story not found")), e').
Proof.
  intros e e'.
  assert (delete_tracked_story (VStr "alice") "0" e = (Ok true, e')) as Hdel
    by by vm_compute.
  split; [vm_compute; discriminate|]. split; [exact Hdel|].
  destruct (deleted_story_not_found "0" e) as [_ H].
  destruct (H (VStr "alice") e' Hdel) as [Hnone Hget].
  split; [exact Hnone|]. by apply (Hget _ (<["sub" := VStr "bob"]> ∅)).
Defined.

(** C8.  For a caller and a story id, take a state without the story and a
    state where it belongs to someone else.  In both, [delete_tracked_story]
    answers [false] and changes nothing, so the other user's story keeps its
    status; and the delete resource gives the same 404 response in both. *)
Theorem delete_ownership_isolation
    (user_id : value) (sid : string) (e1 e2 : engine) (story : TrackedStory) :
  tracked_stories e1 !! sid = None →
  tracked_stories e2 !! sid = Some story →
  owner_user_id story ≠ user_id →
  delete_tracked_story user_id sid e1 = (Ok false, e1)
  ∧ delete_tracked_story user_id sid e2 = (Ok false, e2)
  ∧ tracked_stories (delete_tracked_story user_id sid e2).2 !! sid = Some story
  ∧ ∀ rq payload,
      auth rq = ValidToken payload → dict_get payload "sub" VNone = user_id →
      (StoryTrackingDetail_delete sid rq e1).1 = (StoryTrackingDetail_delete sid rq e2).1
      ∧ StoryTrackingDetail_delete sid rq e2 =
          (Ok (Response 404
                 (error_body "Failed to delete tracked story or story not found")), e2).
Proof.
  intros H1 H2 Hother.
  assert (delete_tracked_story user_id sid e1 = (Ok false, e1)) as Hd1
    by (apply delete_tracked_story_false; by left).
  assert (delete_tracked_story user_id sid e2 = (Ok false, e2)) as Hd2
    by (apply delete_tracked_story_false; right; eauto).
  split_and!; [done | done | by rewrite Hd2 |].
  intros rq payload Hauth Hsub. rewrite <- Hsub in Hd1, Hd2.
  rewrite (detail_delete_not_found sid rq payload e1 Hauth Hd1).
  by rewrite (detail_delete_not_found sid rq payload e2 Hauth Hd2).
Qed.

Example delete_ownership_isolation_witness :
  let e := (create_tracked_story sample_provider "2025-03-02T10:00:00" (VStr "alice")
              (VStr "electric vehicles") VNone empty_engine).2 in
  (status <$> tracked_stories e !! "0") = Some ACTIVE ∧
  delete_tracked_story (VStr "bob") "0" e = (Ok false, e) ∧
  (StoryTrackingDetail_delete "0" (sample_request "bob" VNone) empty_engine).1 =
    (StoryTrackingDetail_delete "0" (sample_request "bob" VNone) e).1.
Proof.
  intros e. split; [by vm_compute|].
  destruct (tracked_stories e !! "0") as [story|] eqn:Hs; [|by vm_compute in Hs].
  assert (owner_user_id story ≠ VStr "bob") as Hother.
  { vm_compute in Hs. injection Hs as <-. simpl. discriminate. }
  destruct (delete_ownership_isolation (VStr "bob") "0" empty_engine e story
              eq_refl Hs Hother) as (_ & Hd & _ & Hsame).
  split; [exact Hd|].
  by apply (Hsame _ (<["sub" := VStr "bob"]> ∅)).
Defined.

(** C9.  With the empty keyword, [create_tracked_story] raises
    [InvalidInput] and the create resource answers 400; neither changes the
    state, so no story is created.  With a non-empty keyword the story table
    gets a new story under a fresh id, ACTIVE, with that keyword and owner,
    whatever the user, the seed article and the outcome of the first refresh
    pass. *)
Theorem create_story_requires_keyword
    (provider : string → provider_response) (e : engine) :
  (∀ now user_id src,
     create_tracked_story provider now user_id (VStr "") src e =
       (Raise (InvalidInput "keyword is required"), e))
  ∧ (∀ rq payload d,
       auth rq = ValidToken payload → json rq = VDict d →
       d !! "keyword" = Some (VStr "") →
       StoryTracking_post provider rq e =
         (Ok (Response 400 (error_body "Keyword is required")), e))
  ∧ (∀ now user_id src k, k ≠ "" →
       tracked_stories e !! fresh (dom (tracked_stories e)) = None ∧
       ∃ story,
         tracked_stories (create_tracked_story provider now user_id (VStr k) src e).2
           !! fresh (dom (tracked_stories e)) = Some story ∧
         status story = ACTIVE ∧ keyword story = k ∧ owner_user_id story = user_id)
  ∧ (∀ rq payload d k,
       auth rq = ValidToken payload → json rq = VDict d →
       d !! "keyword" = Some (VStr k) → k ≠ "" →
       ∃ story,
         tracked_stories (StoryTracking_post provider rq e).2
           !! fresh (dom (tracked_stories e)) = Some story ∧
         status story = ACTIVE ∧ keyword story = k ∧
         owner_user_id story = dict_get payload "sub" VNone).
Proof.
  split_and!.
  - done.
  - intros rq payload d Hauth Hjson Hk.
    apply (story_post_bad_keyword provider rq payload d); [done..|].
    unfold dict_get. by rewrite Hk.
  - intros now user_id src k Hk.
    destruct (create_tracked_story_state provider now user_id k src e Hk) as [Hfresh Hst].
    split; [done|]. eexists. split; [exact Hst|]. done.
  - intros rq payload d k Hauth Hjson Hd Hk.
    assert (dict_get d "keyword" VNone = VStr k) as Hkw
      by (unfold dict_get; by rewrite Hd).
    rewrite (story_post_state provider rq payload d e Hauth Hjson).
    + rewrite Hkw.
      destruct (create_tracked_story_state provider (now rq)
                  (dict_get payload "sub" VNone) k
                  (dict_get d "sourceArticleId" VNone) e Hk) as [_ Hst].
      eexists. split; [exact Hst|]. done.
    + rewrite Hkw. simpl. destruct k; [done|]. done.
Qed.

Example create_story_requires_keyword_witness :
  StoryTracking_post sample_provider
    (sample_request "alice" (VDict (<["keyword" := VStr ""]> ∅))) empty_engine =
    (Ok (Response 400 (error_body "Keyword is required")), empty_engine)
  ∧ ∃ story,
      tracked_stories
        (StoryTracking_post sample_provider
           (sample_request "alice" (VDict (<["keyword" := VStr "electric vehicles"]> ∅)))
           empty_engine).2 !! "0" = Some story ∧
      status story = ACTIVE ∧ keyword story = "electric vehicles" ∧
      owner_user_id story = VStr "alice".
Proof.
  destruct (create_story_requires_keyword sample_provider empty_engine)
    as (_ & Hbad & _ & Hgood).
  split.
  - by apply (Hbad _ (<["sub" := VStr "alice"]> ∅) (<["keyword" := VStr ""]> ∅)).
  - destruct (Hgood (sample_request "alice"
                       (VDict (<["keyword" := VStr "electric vehicles"]> ∅)))
                (<["sub" := VStr "alice"]> ∅)
                (<["keyword" := VStr "electric vehicles"]> ∅) "electric vehicles"
                ltac:(reflexivity) ltac:(reflexivity) ltac:(reflexivity)
                ltac:(discriminate))
      as (story & Hs & Hactive & Hk & Ho).
    exists story. split_and!; [exact Hs | exact Hactive | exact Hk | exact Ho].
Defined.

(** * Further properties of the storage module *)


Section storage_more.
Implicit Types (db : supabase) (a r f : gmap string value) (u i : value).


(** Every way a call can go, on any table. *)
Lemma store_article_outcome a db :
  (a !! "url" = None ∧
   store_article_in_supabase a db = (Raise (KeyError "url"), db))
  ∨ (∃ u r rest, a !! "url" = Some u ∧
       select_eq_url u (news_articles db) = r :: rest ∧
       store_article_in_supabase a db = (getitem r "id", db))
  ∨ (∃ u e, a !! "url" = Some u ∧ select_eq_url u (news_articles db) = [] ∧
       new_article_fields a = Raise e ∧
       store_article_in_supabase a db = (Raise e, db))
  ∨ (∃ u f, a !! "url" = Some u ∧ select_eq_url u (news_articles db) = [] ∧
       new_article_fields a = Ok f ∧
       store_article_in_supabase a db =
         (Ok (VNum (Z.of_nat (news_serial db))), inserted f db)).
Proof.
  destruct (a !! "url") as [u|] eqn:Ha.
  - right. destruct (select_eq_url u (news_articles db)) as [|r rest] eqn:Hsel.
    + right. destruct (new_article_fields a) as [f|e] eqn:Hf.
      * right. exists u, f. split_and!; [done..|]. by apply (store_fresh a db u f).
      * left. exists u, e. split_and!; [done..|]. by apply (store_fresh_fails a db u e).
    + left. exists u, r, rest. split_and!; [done..|].
      unfold store_article_in_supabase, mbind, py_bind, lift, get_store, getitem.
      rewrite Ha. simpl. rewrite Hsel. simpl. by destruct (r !! "id").
  - left. split; [done|]. by apply store_no_url.
Qed.
Lemma store_raise_unchanged a db db' e :
  store_article_in_supabase a db = (Raise e, db') → db' = db.
Proof.
  intros Hrun.
  destruct (store_article_outcome a db)
    as [[_ Hst] | [(u & r & rest & _ & _ & Hst) | [(u & e' & _ & _ & _ & Hst)
       | (u & f & _ & _ & _ & Hst)]]];
    rewrite Hst in Hrun; by injection Hrun.
Qed.

End storage_more.



(** X2.  A call of [store_article_in_supabase] that raises has written
    nothing: the store is the one before the call. *)
Theorem store_article_failure_writes_nothing
    (a : gmap string value) (db db' : supabase) (e : exn) :
  store_article_in_supabase a db = (Raise e, db') → db' = db.
Proof. apply store_raise_unchanged. Qed.

Example store_article_failure_writes_nothing_witness :
  let db := (store_article_in_supabase
               (sample_article "https://news.example/ev" "First title")
               empty_supabase).2 in
  store_article_in_supabase
    (delete "title" (sample_article "https://news.example/soup" "Soup")) db =
    (Raise (KeyError "title"), db).
Proof.
  intros db.
  destruct (store_article_in_supabase
              (delete "title" (sample_article "https://news.example/soup" "Soup")) db)
    as [res db'] eqn:Hrun.
  assert (res = Raise (KeyError "title")) as ->.
  { apply (f_equal fst) in Hrun. vm_compute in Hrun. by rewrite <- Hrun. }
  by rewrite (store_article_failure_writes_nothing _ db db' _ Hrun).
Defined.

(** X3.  A call of [store_article_in_supabase] never removes or rewrites a
    row: the table after the call is the table before it followed by at
    most one new row; the rows of every other url and the search history
    are as before. *)
Theorem store_article_only_appends (a : gmap string value) (db : supabase) :
  ∃ added,
    news_articles (store_article_in_supabase a db).2 = news_articles db ++ added ∧
    length added ≤ 1 ∧
    user_search_history (store_article_in_supabase a db).2 = user_search_history db ∧
    ∀ v, a !! "url" ≠ Some v →
         select_eq_url v (news_articles (store_article_in_supabase a db).2) =
         select_eq_url v (news_articles db).
Proof.
  destruct (store_article_outcome a db)
    as [[_ Hst] | [(u & r & rest & _ & _ & Hst) | [(u & e' & _ & _ & _ & Hst)
       | (u & f & Ha & _ & Hf & Hst)]]];
    rewrite Hst; simpl.
  1-3: exists []; rewrite app_nil_r; split_and!; [done | simpl; lia | done | done].
  exists [<["id" := VNum (Z.of_nat (news_serial db))]> f].
  split_and!; [done | simpl; lia | done |].
  intros v Hv. rewrite select_eq_url_app.
  unfold select_eq_url at 2. rewrite filter_cons, filter_nil.
  rewrite decide_False; [by rewrite app_nil_r|].
  rewrite lookup_insert_ne by done.
  rewrite (new_article_fields_url a f u Hf Ha). congruence.
Qed.



(** * The news resource: what a request stores and logs *)

Section news_fetch.
Implicit Types (db : supabase) (a : gmap string value) (rq : request).







(** [NewsFetch.get] once the fetch has given a list. *)
Lemma NewsFetch_get_on_list provider rq db items :
  fetch_news provider (default "" (args rq !! "keyword")) = Ok (VList items) →
  NewsFetch_get provider rq db =
    match store_all rq (arg rq "user_id") (arg rq "session_id") [] items db with
    | (Ok ids, db') => (Ok (Response 200 (success_body (VList ids))), db')
    | (Raise e, db') => (Ok (Response 500 (error_body (exn_str e))), db')
    end.
Proof.
  intros Hfetch. unfold NewsFetch_get, try_except, mbind, py_bind, lift. simpl.
  rewrite Hfetch. simpl.
  assert ((if match items with [] => false | _ :: _ => true end
           then Ok (length items) else Ok 0) = Ok (length items)) as ->
    by by destruct items.
  by destruct (store_all rq _ _ [] items db) as [[ids|e] db'].
Qed.
End news_fetch.





(** X7.  Pages at the edge.  With a body whose status is "ok" and whose
    [articles] entry is missing or the empty list, [NewsFetch.get] answers
    200 with no ids and writes nothing.  With [articles] null the loop runs
    on [None], and with a body that is no JSON object [fetch_news] itself
    raises: both give 500, and nothing is written. *)
Theorem news_fetch_edge_pages
    (provider : string → provider_response) (rq : request) (db : supabase) :
  (∀ d, provider (default "" (args rq !! "keyword")) = JsonBody (VDict d) →
        d !! "status" = Some (VStr "ok") →
        (d !! "articles" = None ∨ d !! "articles" = Some (VList []) →
           NewsFetch_get provider rq db =
             (Ok (Response 200 (success_body (VList []))), db))
        ∧ (d !! "articles" = Some VNone →
           NewsFetch_get provider rq db =
             (Ok (Response 500 (error_body "'NoneType' object is not iterable")), db)))
  ∧ (∀ v, provider (default "" (args rq !! "keyword")) = JsonBody v →
          is_dict v = false →
          ∃ msg, fetch_news provider (default "" (args rq !! "keyword")) =
                   Raise (AttributeError msg) ∧
                 NewsFetch_get provider rq db =
                   (Ok (Response 500 (error_body msg)), db)).
Proof.
  split.
  - intros d Hbody Hstatus.
    assert (∀ v, dict_get d "articles" (VList []) = v →
              fetch_news provider (default "" (args rq !! "keyword")) = Ok v) as Hfetch.
    { intros v Hv. unfold fetch_news. rewrite Hbody. simpl.
      assert (dict_get d "status" VNone = VStr "ok") as ->
        by (unfold dict_get; by rewrite Hstatus).
      rewrite bool_decide_true by done. by rewrite Hv. }
    split.
    + intros Hart.
      rewrite (NewsFetch_get_on_list provider rq db []); [done|].
      apply Hfetch. unfold dict_get. by destruct Hart as [-> | ->].
    + intros Hart. unfold NewsFetch_get, try_except, mbind, py_bind, lift. simpl.
      rewrite (Hfetch VNone); [done|]. unfold dict_get. by rewrite Hart.
  - intros v Hbody Hv.
    exists "object has no attribute 'get'".
    assert (fetch_news provider (default "" (args rq !! "keyword")) =
              Raise (AttributeError "object has no attribute 'get'")) as Hfetch.
    { unfold fetch_news. rewrite Hbody. by destruct v. }
    split; [done|].
    unfold NewsFetch_get, try_except, mbind, py_bind, lift. simpl.
    by rewrite Hfetch.
Qed.

(** * The token check *)

(** X8.  Without a valid token [token_required] answers 401 and does not
    run the handler: the state is untouched, whatever the handler is.  So a
    request that carries no token, or a rejected one, creates, reads and
    deletes nothing through the story-tracking resources. *)
Theorem token_required_rejects (rq : request) (e : engine) :
  (∀ payload, auth rq ≠ ValidToken payload) →
  (∀ f, ∃ body, token_required rq f e = (Ok (Response 401 body), e))
  ∧ (∀ provider, ∃ body,
       StoryTracking_post provider rq e = (Ok (Response 401 body), e))
  ∧ (∀ sid, ∃ body,
       StoryTrackingDetail_get sid rq e = (Ok (Response 401 body), e))
  ∧ (∀ sid, ∃ body,
       StoryTrackingDetail_delete sid rq e = (Ok (Response 401 body), e)).
Proof.
  intros Hauth.
  assert (∀ f, ∃ body, token_required rq f e = (Ok (Response 401 body), e)) as H.
  { intros f. unfold token_required.
    destruct (auth rq) as [|msg|payload] eqn:Ha.
    - by eexists.
    - by eexists.
    - by destruct (Hauth payload). }
  split_and!; [done | intros; apply H..].
Qed.

Example token_required_rejects_witness :
  let rq := Request ∅ (InvalidToken "Signature has expired")
              (VDict (<["keyword" := VStr "electric vehicles"]> ∅))
              "2025-03-02T10:00:00" in
  (∀ payload, auth rq ≠ ValidToken payload) ∧
  ∃ body, StoryTracking_post sample_provider rq empty_engine =
            (Ok (Response 401 body), empty_engine).
Proof.
  intros rq.
  assert (∀ payload, auth rq ≠ ValidToken payload) as Hauth by done.
  split; [exact Hauth|].
  destruct (token_required_rejects rq empty_engine Hauth) as (_ & Hpost & _).
  apply Hpost.
Defined.

(** X9.  [token_required] never lets an exception out.  With a valid token
    the answer of the handler is passed on; an exception of the handler is
    answered as 401 "Invalid token" with the text of the exception, and what
    the handler wrote before raising stays written. *)
Theorem token_required_catches (rq : request) (f : py engine response) (e : engine) :
  (∃ resp e', token_required rq f e = (Ok resp, e'))
  ∧ (∀ payload, auth rq = ValidToken payload →
       (∀ resp e', f e = (Ok resp, e') → token_required rq f e = (Ok resp, e'))
       ∧ (∀ err e', f e = (Raise err, e') →
            token_required rq f e =
              (Ok (Response 401 (invalid_token_body (exn_str err))), e'))).
Proof.
  split.
  - unfold token_required. destruct (auth rq); [by eexists _, _ ..|].
    unfold try_except. destruct (f e) as [[resp|err] e']; by eexists _, _.
  - intros payload Ha. unfold token_required, try_except. rewrite Ha.
    split; intros ? e' ->; done.
Qed.

(** * The keyword feed *)

Section keyword_feed.
Implicit Types (db : supabase) (rq : request).


(** The two loops go the same way when no user is named: they store the
    same rows and fail on the same item with the same error. *)
Lemma process_all_like_store_all rq rq' items :
  truthy (arg rq' "user_id") = false →
  ∀ processed ids db,
    (process_all rq processed items db).2 =
      (store_all rq' (arg rq' "user_id") (arg rq' "session_id") ids items db).2
    ∧ ((∃ out ids', (process_all rq processed items db).1 = Ok out ∧
          (store_all rq' (arg rq' "user_id") (arg rq' "session_id") ids items db).1
            = Ok ids')
       ∨ (∃ e, (process_all rq processed items db).1 = Raise e ∧
          (store_all rq' (arg rq' "user_id") (arg rq' "session_id") ids items db).1
            = Raise e)).
Proof.
  intros Huser. induction items as [|item items IH]; intros processed ids db.
  - simpl. split; [done|]. left. by eexists _, _.
  - cbn [process_all store_all].
    assert (∀ {A B} (c : py supabase A) (g : A → py supabase B) s,
              (c ≫= g) s = match c s with
                           | (Ok x, s') => g x s'
                           | (Raise err, s') => (Raise err, s')
                           end) as Hbind by done.
    rewrite !Hbind. unfold process_one, store_one.
    destruct item; try (split; [done|]; right; by eexists).
    rewrite !Hbind, Huser.
    destruct (store_article_in_supabase d db) as [[i|e] db'] eqn:Hst.
    + apply IH.
    + split; [done|]. right. by eexists.
Qed.

End keyword_feed.

(** X10.  [StoryTracking.get] without a keyword, or with the empty one,
    answers 400 before anything is fetched: the provider plays no part and
    nothing is written. *)
Theorem story_get_requires_keyword
    (provider : string → provider_response) (rq : request) (db : supabase) :
  args rq !! "keyword" = None ∨ args rq !! "keyword" = Some "" →
  StoryTracking_get provider rq db =
    (Ok (Response 400 (error_body "Keyword parameter is required")), db).
Proof.
  intros [Hk | Hk]; unfold StoryTracking_get, try_except; by rewrite Hk.
Qed.

Example story_get_requires_keyword_witness :
  StoryTracking_get sample_provider (sample_request "alice" VNone) empty_supabase =
    (Ok (Response 400 (error_body "Keyword parameter is required")), empty_supabase).
Proof.
  apply (story_get_requires_keyword sample_provider (sample_request "alice" VNone)
           empty_supabase).
  left. reflexivity.
Defined.

(** X11.  With a keyword, [StoryTracking.get] stores exactly what
    [NewsFetch.get] stores for the same request when that names no user:
    the two leave the same store and answer with the same status, 200 or
    500, and with the same error message. *)
Theorem story_get_stores_like_news_fetch
    (provider : string → provider_response) (rq : request) (db : supabase)
    (k : string) :
  args rq !! "keyword" = Some k → k ≠ "" →
  truthy (arg rq "user_id") = false →
  (StoryTracking_get provider rq db).2 = (NewsFetch_get provider rq db).2
  ∧ ∃ r1 r2,
      (StoryTracking_get provider rq db).1 = Ok r1 ∧
      (NewsFetch_get provider rq db).1 = Ok r2 ∧
      status_code r1 = status_code r2 ∧
      (status_code r1 = 200 ∨ (status_code r1 = 500 ∧ body r1 = body r2)).
Proof.
  intros Hk Hne Huser.
  assert (truthy (VStr k) = true) as Htruthy by (simpl; by destruct k).
  destruct (fetch_news provider k) as [fetched|err] eqn:Hfetch.
  - unfold StoryTracking_get, NewsFetch_get, try_except. rewrite Hk, Htruthy.
    unfold mbind, py_bind, lift. simpl. rewrite Hfetch. simpl.
    destruct (if truthy fetched then py_len fetched else Ok 0) as [n|e];
      [|split; [done|]; eexists _, _; split_and!; try done; by right].
    destruct (py_iter fetched) as [items|e];
      [|split; [done|]; eexists _, _; split_and!; try done; by right].
    destruct (process_all_like_store_all rq rq items Huser [] [] db)
      as [Hst [(out & ids & Hp & Hs) | (e & Hp & Hs)]];
      destruct (process_all rq [] items db) as [r1 d1];
      destruct (store_all rq _ _ [] items db) as [r2 d2];
      simpl in *; subst; (split; [done|]); eexists _, _;
      split_and!; try done; [by left | by right].
  - unfold StoryTracking_get, NewsFetch_get, try_except. rewrite Hk.
    rewrite Htruthy. unfold mbind, py_bind, lift. simpl. rewrite Hfetch. simpl.
    split; [done|]. eexists _, _. split_and!; try done. by right.
Qed.

Example story_get_stores_like_news_fetch_witness :
  let rq := Request (<["keyword" := "electric vehicles"]> ∅) NoAuthorization VNone
              "2025-03-02T10:00:00" in
  (StoryTracking_get sample_provider rq empty_supabase).2 =
    (NewsFetch_get sample_provider rq empty_supabase).2
  ∧ length (news_articles (StoryTracking_get sample_provider rq empty_supabase).2) = 2.
Proof.
  intros rq. split; [|by vm_compute].
  apply (story_get_stores_like_news_fetch sample_provider rq empty_supabase
           "electric vehicles"); [reflexivity | discriminate | reflexivity].
Defined.



(** X13.  [StoryTracking.get] has the loop of [NewsFetch.get], and its
    flaw: when the provider request fails, [fetch_news] gives [None], the
    loop raises on it, and the answer is 500; nothing is written. *)
Theorem story_get_on_provider_failure
    (provider : string → provider_response) (rq : request) (db : supabase)
    (k : string) :
  args rq !! "keyword" = Some k → k ≠ "" →
  provider_failed (provider k) →
  StoryTracking_get provider rq db =
    (Ok (Response 500 (error_body "'NoneType' object is not iterable")), db).
Proof.
  intros Hk Hne Hfail.
  assert (fetch_news provider k = Ok VNone) as Hnone.
  { unfold fetch_news. destruct (provider k) as [msg|code|v]; try done.
    destruct v as [| | | | |d]; try done. simpl in Hfail. simpl.
    rewrite bool_decide_false; [done|].
    unfold dict_get. destruct (d !! "status") as [v|]; [|done].
    intros ->. done. }
  unfold StoryTracking_get, try_except. rewrite Hk.
  assert (truthy (VStr k) = true) as -> by (simpl; by destruct k).
  unfold mbind, py_bind, lift. simpl. by rewrite Hnone.
Qed.

Example story_get_on_provider_failure_witness :
  let rq := Request (<["keyword" := "electric vehicles"]> ∅) NoAuthorization VNone
              "2025-03-02T10:00:00" in
  provider_failed (failing_provider "electric vehicles") ∧
  StoryTracking_get failing_provider rq empty_supabase =
    (Ok (Response 500 (error_body "'NoneType' object is not iterable")),
     empty_supabase).
Proof.
  intros rq. split; [exact I|].
  apply (story_get_on_provider_failure failing_provider rq empty_supabase
           "electric vehicles"); [reflexivity | discriminate | exact I].
Defined.

(** * The summaries resource *)

(** X14.  [NewsProcess.post] with a body that has no [article_ids], or an
    empty list of them, answers 400 and never calls the summarization
    service: the answer and the untouched state are the same for every
    service, with or without a token. *)
Theorem news_process_requires_ids {S : Type}
    (process_articles : value → value → py S value) (rq : request) (s : S)
    (d : gmap string value) :
  json rq = VDict d →
  d !! "article_ids" = None ∨ d !! "article_ids" = Some (VList []) →
  NewsProcess_post process_articles rq s =
    (Ok (Response 400 (error_body "No article IDs provided in request body")), s).
Proof.
  intros Hjson Hids.
  unfold NewsProcess_post, try_except, mbind, py_bind, lift. rewrite Hjson. simpl.
  unfold dict_get. by destruct Hids as [-> | ->].
Qed.

Example news_process_requires_ids_witness :
  NewsProcess_post (S:=supabase) (λ _ _, raise (TypeError "never called"))
    (sample_request "alice" (VDict (<["article_ids" := VList []]> ∅)))
    empty_supabase =
    (Ok (Response 400 (error_body "No article IDs provided in request body")),
     empty_supabase).
Proof.
  apply (news_process_requires_ids _ _ empty_supabase (<["article_ids" := VList []]> ∅)).
  - reflexivity.
  - right. reflexivity.
Defined.

(** X15.  [NewsProcess.post] never lets an exception out: it answers 200,
    400 or 500 whatever the request and the summarization service do.  Its
    token is optional: a token that is rejected is handled exactly like no
    token (the service is called for the user [None]), never answered with
    401. *)
Theorem news_process_token_is_optional {S : Type}
    (process_articles : value → value → py S value) (rq : request) (s : S) :
  (∃ resp s', NewsProcess_post process_articles rq s = (Ok resp, s') ∧
              (status_code resp = 200 ∨ status_code resp = 400
               ∨ status_code resp = 500))
  ∧ (∀ msg,
       NewsProcess_post process_articles
         (Request (args rq) (InvalidToken msg) (json rq) (now rq)) s =
       NewsProcess_post process_articles
         (Request (args rq) NoAuthorization (json rq) (now rq)) s).
Proof.
  split; [|done].
  unfold NewsProcess_post, try_except.
  match goal with |- context [match ?c s with _ => _ end] =>
    destruct (c s) as [[resp|e] s'] eqn:Hrun end.
  - exists resp, s'. split; [done|]. revert Hrun.
    unfold mbind, py_bind, lift. simpl.
    destruct (method_get (json rq) "article_ids" (VList [])) as [ids|]; [|done].
    destruct (negb (truthy ids)); [intros [= <- _]; simpl; tauto|].
    destruct (process_articles ids (optional_user_id rq) s) as [[out|] s1]; [|done].
    destruct (if truthy out then py_len out else Ok 0); [|done].
    intros [= <- _]. simpl. tauto.
  - eexists _, _. split; [done|]. simpl. tauto.
Qed.

(** * Accounts *)

Section accounts.
Implicit Types (env : accounts) (rq : request) (file : users_file).

(** The duplicate check over a list of user dictionaries. *)
Lemma username_exists_dicts username (users : list (gmap string value)) :
  username_exists username (VDict <$> users) =
    Ok (bool_decide (Exists (λ u, py_eq (dict_get u "username" VNone) username = true)
                            users)).
Proof.
  induction users as [|u users IH].
  - cbn [fmap list_fmap username_exists]. f_equal.
  - rewrite fmap_cons. cbn [username_exists method_get].
    unfold mbind, result_bind.
    destruct (py_eq (dict_get u "username" VNone) username) eqn:Hu.
    + f_equal. symmetry. apply bool_decide_eq_true. by apply Exists_cons_hd.
    + rewrite IH. f_equal. apply bool_decide_ext. rewrite Exists_cons.
      split; [by right|]. intros [Hhd|?]; [congruence|done].
Qed.

End accounts.

(** X16.  [Signup.post] refuses a request without a username, a password
    or an email (missing, null or empty) with 400, before the users are
    loaded: whatever the stored users, nothing is written. *)
Theorem signup_requires_fields
    (env : accounts) (rq : request) (file : users_file) (d : gmap string value) :
  json rq = VDict d →
  truthy (dict_get d "username" VNone) = false
  ∨ truthy (dict_get d "password" VNone) = false
  ∨ truthy (dict_get d "email" VNone) = false →
  Signup_post env rq file =
    (Ok (Response 400 (error_only "Username, password, and email are required")),
     file).
Proof.
  intros Hjson Hmiss.
  unfold Signup_post, mbind, py_bind, lift. rewrite Hjson. simpl.
  destruct Hmiss as [-> | [-> | ->]]; simpl; rewrite ?orb_true_r; done.
Qed.

Example signup_requires_fields_witness :
  Signup_post (Accounts [] "7f8a" Saved)
    (sample_request "" (VDict (<["username" := VStr "ann"]>
                              (<["password" := VStr ""]>
                              (<["email" := VStr "ann@example.org"]> ∅)))))
    Untouched =
    (Ok (Response 400 (error_only "Username, password, and email are required")),
     Untouched).
Proof.
  apply (signup_requires_fields _ _ Untouched
           (<["username" := VStr "ann"]> (<["password" := VStr ""]>
            (<["email" := VStr "ann@example.org"]> ∅)))).
  - reflexivity.
  - right. left. reflexivity.
Defined.

(** X17.  [Signup.post] refuses a username that a stored user already has
    with 400 "Username already exists", and writes nothing. *)
Theorem signup_refuses_taken_username
    (env : accounts) (rq : request) (file : users_file) (d : gmap string value)
    (users : list (gmap string value)) :
  json rq = VDict d →
  truthy (dict_get d "username" VNone) = true →
  truthy (dict_get d "password" VNone) = true →
  truthy (dict_get d "email" VNone) = true →
  load_users env = VDict <$> users →
  Exists (λ u, py_eq (dict_get u "username" VNone) (dict_get d "username" VNone) = true)
         users →
  Signup_post env rq file =
    (Ok (Response 400 (error_only "Username already exists")), file).
Proof.
  intros Hjson Hu Hp He Hload Hex.
  unfold Signup_post, mbind, py_bind, lift. rewrite Hjson. simpl.
  rewrite Hu, Hp, He. simpl. rewrite Hload, username_exists_dicts.
  by rewrite bool_decide_true.
Qed.

Example signup_refuses_taken_username_witness :
  Signup_post
    (Accounts [VDict (<["id" := VStr "1"]> (<["username" := VStr "ann"]> ∅))]
              "7f8a" Saved)
    (sample_request "" (VDict (<["username" := VStr "ann"]>
                              (<["password" := VStr "pw"]>
                              (<["email" := VStr "ann@example.org"]> ∅)))))
    Untouched =
    (Ok (Response 400 (error_only "Username already exists")), Untouched).
Proof.
  apply (signup_refuses_taken_username _ _ Untouched
           (<["username" := VStr "ann"]> (<["password" := VStr "pw"]>
            (<["email" := VStr "ann@example.org"]> ∅)))
           [<["id" := VStr "1"]> (<["username" := VStr "ann"]> ∅)]);
    try reflexivity.
  apply Exists_cons_hd. reflexivity.
Defined.

(** X18.  [Signup.post] never answers 201.  For a new username and a write
    that succeeds, the users file is rewritten with the new user at the end
    of the list, password included, and then the handler raises: the
    payload of the token calls [datetime.datetime.utcnow()] where [datetime]
    names the class.  Every answer the handler does give is a 400 or a
    500. *)
Theorem signup_saves_then_raises
    (env : accounts) (rq : request) (file : users_file) :
  (∀ resp file', Signup_post env rq file = (Ok resp, file') →
     status_code resp = 400 ∨ status_code resp = 500)
  ∧ (∀ d (users : list (gmap string value)),
       json rq = VDict d →
       truthy (dict_get d "username" VNone) = true →
       truthy (dict_get d "password" VNone) = true →
       truthy (dict_get d "email" VNone) = true →
       load_users env = VDict <$> users →
       Forall (λ u, py_eq (dict_get u "username" VNone) (dict_get d "username" VNone)
                    = false) users →
       save env = Saved →
       ∃ msg,
         Signup_post env rq file =
           (Raise (AttributeError msg),
            Rewritten ((VDict <$> users) ++
                       [VDict (new_user (uuid4 env)
                                 (dict_get d "username" VNone)
                                 (dict_get d "password" VNone)
                                 (dict_get d "email" VNone)
                                 (dict_get d "firstName" (VStr ""))
                                 (dict_get d "lastName" (VStr "")))]))).
Proof.
  split.
  - intros resp file'. unfold Signup_post, mbind, py_bind, lift.
    destruct (method_get (json rq) "username" VNone) as [username|]; [|done].
    destruct (method_get (json rq) "password" VNone) as [password|]; [|done].
    destruct (method_get (json rq) "email" VNone) as [email|]; [|done].
    destruct (method_get (json rq) "firstName" (VStr "")) as [first|]; [|done].
    destruct (method_get (json rq) "lastName" (VStr "")) as [last|]; [|done].
    destruct (negb (truthy username) || negb (truthy password) || negb (truthy email));
      [intros [= <- _]; simpl; tauto|].
    destruct (username_exists username (load_users env)) as [[|]|]; [| |done].
    + intros [= <- _]. simpl. tauto.
    + unfold write_users. destruct (save env); [done | |];
        intros [= <- _]; simpl; tauto.
  - intros d users Hjson Hu Hp He Hload Hnew Hsave.
    eexists. unfold Signup_post, mbind, py_bind, lift. rewrite Hjson. simpl.
    rewrite Hu, Hp, He. simpl. rewrite Hload, username_exists_dicts.
    rewrite bool_decide_false.
    + unfold write_users. by rewrite Hsave.
    + intros (u & Hin & Heq)%Exists_exists.
      rewrite Forall_forall in Hnew. specialize (Hnew u Hin). congruence.
Qed.

Example signup_saves_then_raises_witness :
  ∃ msg saved,
    Signup_post
      (Accounts [VDict (<["id" := VStr "1"]> (<["username" := VStr "bob"]> ∅))]
                "7f8a" Saved)
      (sample_request "" (VDict (<["username" := VStr "ann"]>
                                (<["password" := VStr "pw"]>
                                (<["email" := VStr "ann@example.org"]> ∅)))))
      Untouched = (Raise (AttributeError msg), Rewritten saved) ∧
    (λ u, subscript u "username") <$> saved = [Ok (VStr "bob"); Ok (VStr "ann")] ∧
    (λ u, subscript u "password") <$> saved = [Raise (KeyError "password"); Ok (VStr "pw")].
Proof.
  destruct (signup_saves_then_raises
              (Accounts [VDict (<["id" := VStr "1"]> (<["username" := VStr "bob"]> ∅))]
                        "7f8a" Saved)
              (sample_request "" (VDict (<["username" := VStr "ann"]>
                                        (<["password" := VStr "pw"]>
                                        (<["email" := VStr "ann@example.org"]> ∅)))))
              Untouched) as [_ H].
  destruct (H (<["username" := VStr "ann"]> (<["password" := VStr "pw"]>
               (<["email" := VStr "ann@example.org"]> ∅)))
              [<["id" := VStr "1"]> (<["username" := VStr "bob"]> ∅)])
    as [msg Hrun]; try reflexivity.
  { apply Forall_cons_2; [reflexivity | apply Forall_nil_2]. }
  eexists msg, _. split; [exact Hrun|]. split; by vm_compute.
Defined.


Example news_fetch_edge_pages_witness :
  NewsFetch_get (λ _, JsonBody (VDict (<["status" := VStr "ok"]>
                                      (<["articles" := VNone]> ∅))))
    (sample_request "alice" VNone) empty_supabase =
    (Ok (Response 500 (error_body "'NoneType' object is not iterable")),
     empty_supabase).
Proof.
  destruct (news_fetch_edge_pages
              (λ _, JsonBody (VDict (<["status" := VStr "ok"]>
                                    (<["articles" := VNone]> ∅))))
              (sample_request "alice" VNone) empty_supabase) as [H _].
  destruct (H (<["status" := VStr "ok"]> (<["articles" := VNone]> ∅))
              eq_refl ltac:(reflexivity)) as [_ Hnull].
  apply Hnull. reflexivity.
Defined.

Example token_required_catches_witness :
  token_required (sample_request "alice" VNone)
    (raise (KeyError "keyword")) empty_engine =
    (Ok (Response 401 (invalid_token_body "'keyword'")), empty_engine).
Proof.
  destruct (token_required_catches (sample_request "alice" VNone)
              (raise (KeyError "keyword")) empty_engine) as [_ H].
  destruct (H (<["sub" := VStr "alice"]> ∅) eq_refl) as [_ Hraise].
  by apply (Hraise (KeyError "keyword") empty_engine).
Defined.


(** * Bookmarks *)

(** X20.  [Bookmark.post] without a [news_id] in its body (missing, null,
    empty or zero) answers 400 and never calls [add_bookmark]: the state is
    untouched, whatever that function is. *)
Theorem bookmark_post_requires_news_id
    (add_bookmark : value → value → py engine value) (rq : request) (e : engine)
    (payload d : gmap string value) :
  auth rq = ValidToken payload → json rq = VDict d →
  truthy (dict_get d "news_id" VNone) = false →
  Bookmark_post add_bookmark rq e =
    (Ok (Response 400 (error_only "News article ID is required")), e).
Proof.
  intros Hauth Hjson Hid.
  unfold Bookmark_post, token_required, token_payload. rewrite Hauth, Hjson.
  unfold try_except, mbind, py_bind, lift. simpl. by rewrite Hid.
Qed.

Example bookmark_post_requires_news_id_witness :
  Bookmark_post (λ _ _, raise (TypeError "never called"))
    (sample_request "alice" (VDict (<["news_id" := VNum 0]> ∅))) empty_engine =
    (Ok (Response 400 (error_only "News article ID is required")), empty_engine).
Proof.
  apply (bookmark_post_requires_news_id _ _ empty_engine
           (<["sub" := VStr "alice"]> ∅) (<["news_id" := VNum 0]> ∅));
    reflexivity.
Defined.

(** X21.  [BookmarkDelete.delete] does not look at what [delete_bookmark]
    returns: whenever that call returns, be it [True], [False] or [None], the
    answer is 200 "Bookmark removed successfully"; only an exception gives
    500. *)
Theorem bookmark_delete_ignores_result
    (delete_bookmark : value → value → py engine value)
    (bookmark_id : string) (rq : request) (e e' : engine)
    (payload : gmap string value) :
  auth rq = ValidToken payload →
  (∀ out,
     delete_bookmark (dict_get payload "sub" VNone) (VStr bookmark_id) e = (Ok out, e') →
     BookmarkDelete_delete delete_bookmark bookmark_id rq e =
       (Ok (Response 200 (success_message "Bookmark removed successfully")), e'))
  ∧ (∀ err,
     delete_bookmark (dict_get payload "sub" VNone) (VStr bookmark_id) e = (Raise err, e') →
     BookmarkDelete_delete delete_bookmark bookmark_id rq e =
       (Ok (Response 500 (error_body (exn_str err))), e')).
Proof.
  intros Hauth.
  split; intros x Hdel;
    unfold BookmarkDelete_delete, token_required, token_payload; rewrite Hauth;
    unfold try_except, mbind, py_bind, lift; simpl; by rewrite Hdel.
Qed.

Example bookmark_delete_ignores_result_witness :
  BookmarkDelete_delete (λ _ _, mret (VBool false)) "b1"
    (sample_request "alice" VNone) empty_engine =
    (Ok (Response 200 (success_message "Bookmark removed successfully")),
     empty_engine).
Proof.
  destruct (bookmark_delete_ignores_result (λ _ _, mret (VBool false)) "b1"
              (sample_request "alice" VNone) empty_engine empty_engine
              (<["sub" := VStr "alice"]> ∅) eq_refl) as [Hok _].
  by apply (Hok (VBool false)).
Defined.
